(** * India crime analytics dashboard: loading and aggregation pipeline

    A shallow embedding of [dashboard.py]: the loader [load_data] and the
    three aggregations the tabs compute ([state_data], [yearly_data],
    [category_data]), over a model of the pandas operations the script
    calls.

    Conventions of the model.
    - A Python [str] is a [string]; each character stands for one code
      point below 256.
    - A data frame row carries the three key columns the script addresses
      by name ([STATE/UT], [DISTRICT], [YEAR]) as record fields and the
      crime-count columns as an association list from column name to
      count.  A cell missing from a row of a frame that has the column is
      what pandas shows as NaN; [sum] skips it.  A column that
      [pd.concat] fills with NaN holds floats: its cells are the integers
      a [float64] can hold.
    - Counts are integers ([Z]) read into [int64] columns; column sums
      wrap around at 64 bits as the sums of pandas do.
    - Python exceptions are values of [Exception], and a computation that
      can raise returns a [Result]. *)

From Stdlib Require Import ZArith List String Ascii Bool Lia Permutation Sorted.
Import ListNotations.
Open Scope string_scope.
Open Scope list_scope.
Open Scope Z_scope.

Set Implicit Arguments.

(** ** Exceptions and results *)

Inductive Exception : Type :=
  | KeyError (missing : list string)
  | FileNotFoundError (path : string)
  | ValueError (what : string)
  | StreamlitInvalidMinMaxError (min_value max_value : Z)
  | TypeError (what : string).

Inductive Result (A : Type) : Type :=
  | Ok (a : A)
  | Raise (e : Exception).

Arguments Ok {A} a.
Arguments Raise {A} e.

Definition bind {A B : Type} (m : Result A) (k : A -> Result B) : Result B :=
  match m with
  | Ok a => k a
  | Raise e => Raise e
  end.

Definition fmap {A B : Type} (f : A -> B) (m : Result A) : Result B :=
  bind m (fun a => Ok (f a)).

Notation "x <- m ;; k" := (bind m (fun x => k))
  (at level 61, m at next level, right associativity).

Fixpoint mapM {A B : Type} (f : A -> Result B) (l : list A) : Result (list B) :=
  match l with
  | [] => Ok []
  | a :: l' =>
      b <- f a ;;
      bs <- mapM f l' ;;
      Ok (b :: bs)
  end.

(** ** Python strings: [str.strip] *)

(** [str.isspace] on one character, for code points below 256: the ASCII
    controls TAB, LF, VT, FF, CR, the separators FS, GS, RS, US, the space,
    NEL (0x85) and the no-break space (0xA0). *)
Definition isspace (c : ascii) : bool :=
  let n := nat_of_ascii c in
  (((9 <=? n) && (n <=? 13)) || ((28 <=? n) && (n <=? 32))
   || (n =? 133) || (n =? 160))%nat.

Fixpoint lstrip (s : string) : string :=
  match s with
  | EmptyString => EmptyString
  | String c s' => if isspace c then lstrip s' else s
  end.

Fixpoint rstrip (s : string) : string :=
  match s with
  | EmptyString => EmptyString
  | String c s' =>
      match rstrip s' with
      | EmptyString => if isspace c then EmptyString else String c EmptyString
      | t => String c t
      end
  end.

(** [s.strip()] with no argument. *)
Definition strip (s : string) : string := rstrip (lstrip s).

(** The first and the last character of a string, when it has one. *)
Definition first_char (s : string) : option ascii :=
  match s with
  | EmptyString => None
  | String c _ => Some c
  end.

Fixpoint last_char (s : string) : option ascii :=
  match s with
  | EmptyString => None
  | String c EmptyString => Some c
  | String _ s' => last_char s'
  end.

Definition is_space_char (o : option ascii) : bool :=
  match o with
  | Some c => isspace c
  | None => false
  end.

(** A string has no leading and no trailing whitespace. *)
Definition trimmed (s : string) : Prop :=
  is_space_char (first_char s) = false /\ is_space_char (last_char s) = false.

(** ** Data frames *)

Record Row : Type := mkRow {
  STATE_UT : string;
  DISTRICT : string;
  YEAR : Z;
  cells : list (string * Z)
}.

Record DataFrame : Type := mkDataFrame {
  columns : list string;   (* the crime-count columns, in header order *)
  rows : list Row
}.

(** A two-column table, as [reset_index] builds from an indexed series:
    the header names the two columns, the body holds one row per index
    entry. *)
Record Table (K : Type) : Type := mkTable {
  header : string * string;
  body : list (K * Z)
}.

Definition has_column (df : DataFrame) (c : string) : bool :=
  existsb (String.eqb c) (columns df).

Fixpoint assoc (k : string) (l : list (string * Z)) : option Z :=
  match l with
  | [] => None
  | (k', v) :: l' => if String.eqb k k' then Some v else assoc k l'
  end.

(** The count a row holds in column [c]; a missing cell adds nothing to a
    sum. *)
Definition cell (c : string) (r : Row) : Z :=
  match assoc c (cells r) with
  | Some v => v
  | None => 0
  end.

(** A 64-bit signed integer: the representative in [-2^63, 2^63). *)
Definition wrap64 (z : Z) : Z := (z + 2 ^ 63) mod 2 ^ 64 - 2 ^ 63.

(** [Series.sum()] on an [int64] column: the values are added one after
    the other in 64-bit signed arithmetic, which wraps around. *)
Definition sum (l : list Z) : Z :=
  fold_right (fun x acc => wrap64 (x + acc)) 0 l.

(** The sum of the values as integers, without wrap-around. *)
Definition total (l : list Z) : Z := fold_right Z.add 0 l.

(** [df[mask]]: the rows at which the boolean mask holds, in order. *)
Definition getitem_mask (df : DataFrame) (mask : Row -> bool) : DataFrame :=
  {| columns := columns df; rows := filter mask (rows df) |}.

(** [df[c]] for a count column: the values of the column, or [KeyError]. *)
Definition getitem (df : DataFrame) (c : string) : Result (list Z) :=
  if has_column df c then Ok (map (cell c) (rows df))
  else Raise (KeyError [c]).

(** [df[cs]] for a list of count columns: [KeyError] with the names that
    are not columns of the frame, otherwise the frame cut down to [cs]. *)
Definition getitem_list (df : DataFrame) (cs : list string) : Result DataFrame :=
  match filter (fun c => negb (has_column df c)) cs with
  | [] => Ok {| columns := cs; rows := rows df |}
  | missing => Raise (KeyError missing)
  end.

(** [df.sum()]: one entry per column, indexed by the column name. *)
Definition frame_sum (df : DataFrame) : list (string * Z) :=
  map (fun c => (c, sum (map (cell c) (rows df)))) (columns df).

(** The [float64] nearest to an integer, ties to the even mantissa: an
    integer of more than 53 significant bits loses its low bits. *)
Definition to_float64 (z : Z) : Z :=
  let a := Z.abs z in
  let drop := Z.log2 a - 52 in
  if drop <=? 0 then z
  else
    let q := Z.shiftr a drop in
    let r := a - Z.shiftl q drop in
    let half := Z.shiftl 1 (drop - 1) in
    let q' :=
      if r <? half then q
      else if half <? r then q + 1
      else if Z.even q then q else q + 1 in
    Z.sgn z * Z.shiftl q' drop.

(** A row of one frame inside the concatenation with [other]: a column
    that [other] lacks is filled with NaN for the rows of [other] and
    thereby becomes a [float64] column, so the row's own cell in that
    column is converted. *)
Definition astype_float64 (other : DataFrame) (r : Row) : Row :=
  {| STATE_UT := STATE_UT r; DISTRICT := DISTRICT r; YEAR := YEAR r;
     cells := map (fun cv => if has_column other (fst cv) then cv
                             else (fst cv, to_float64 (snd cv)))
                  (cells r) |}.

(** [pd.concat([a, b])]: the rows of [a] followed by the rows of [b]; the
    columns of [a] followed by those of [b] that [a] lacks. *)
Definition pd_concat (a b : DataFrame) : DataFrame :=
  {| columns := columns a ++ filter (fun c => negb (has_column a c)) (columns b);
     rows := map (astype_float64 b) (rows a) ++ map (astype_float64 a) (rows b) |}.

(** ** [groupby(key)[c].sum().reset_index()] *)

Section GroupBy.
Variable K : Type.
Variable eqb : K -> K -> bool.
Variable leb : K -> K -> bool.

(** The distinct keys in order of first appearance. *)
Fixpoint unique (l : list K) : list K :=
  match l with
  | [] => []
  | k :: l' => k :: filter (fun k' => negb (eqb k' k)) (unique l')
  end.

Fixpoint insert_sorted (k : K) (l : list K) : list K :=
  match l with
  | [] => [k]
  | k' :: l' => if leb k k' then k :: l else k' :: insert_sorted k l'
  end.

(** [groupby] sorts the group keys ([sort=True] is the default). *)
Fixpoint sort_keys (l : list K) : list K :=
  match l with
  | [] => []
  | k :: l' => insert_sorted k (sort_keys l')
  end.

Definition group_keys (key : Row -> K) (rs : list Row) : list K :=
  sort_keys (unique (map key rs)).

(** The rows of one group. *)
Definition group (key : Row -> K) (k : K) (rs : list Row) : list Row :=
  filter (fun r => eqb (key r) k) rs.

Definition groupby_sum (key : Row -> K) (keyname : string)
    (df : DataFrame) (c : string) : Result (Table K) :=
  if has_column df c then
    Ok {| header := (keyname, c);
          body := map (fun k => (k, sum (map (cell c) (group key k (rows df)))))
                      (group_keys key (rows df)) |}
  else Raise (KeyError [c]).
End GroupBy.

(** [s.reset_index()] on an indexed series: the index becomes the first
    column, named [index]; the values column is named [0]. *)
Definition reset_index (K : Type) (s : list (K * Z)) : Table K :=
  {| header := ("index", "0"); body := s |}.

(** [t.columns = names]: renames the columns; the number of names has to
    match. *)
Definition set_columns (K : Type) (t : Table K) (names : list string)
    : Result (Table K) :=
  match names with
  | [a; b] => Ok {| header := (a, b); body := body t |}
  | _ => Raise (ValueError "Length mismatch")
  end.

(** [t[name] = values] where [name] is the first column of [t]: the
    column is overwritten position by position; the number of values has
    to match the number of rows. *)
Definition setitem_first (K : Type) (t : Table K) (values : list K)
    : Result (Table K) :=
  if (List.length values =? List.length (body t))%nat then
    Ok {| header := header t; body := combine values (map snd (body t)) |}
  else Raise (ValueError "Length of values does not match length of index").

(** ** The loader: [load_data] *)

(** The files the loader can see: a path holds a parsed CSV table or
    nothing.  [YEAR] is read as an integer column. *)
Definition FileSystem : Type := string -> option DataFrame.

Definition pd_read_csv (fs : FileSystem) (path : string) : Result DataFrame :=
  match fs path with
  | Some df => Ok df
  | None => Raise (FileNotFoundError path)
  end.

(** [pd.to_datetime(y, format='%Y').year] on one integer: the integer is
    written out in decimal, and [%Y] takes exactly four digits. *)
Definition to_datetime_year (y : Z) : Result Z :=
  if (1000 <=? y) && (y <=? 9999) then Ok y
  else Raise (ValueError "time data does not match format %Y").

Definition with_YEAR (r : Row) (y : Z) : Row :=
  {| STATE_UT := STATE_UT r; DISTRICT := DISTRICT r; YEAR := y; cells := cells r |}.

Definition with_STATE_UT (r : Row) (s : string) : Row :=
  {| STATE_UT := s; DISTRICT := DISTRICT r; YEAR := YEAR r; cells := cells r |}.

Definition with_DISTRICT (r : Row) (s : string) : Row :=
  {| STATE_UT := STATE_UT r; DISTRICT := s; YEAR := YEAR r; cells := cells r |}.

(** [df[key] = series] for a key column and a series computed from the
    same frame: the values are stored row by row. *)
Definition setitem (V : Type) (set : Row -> V -> Row) (df : DataFrame)
    (series : list V) : DataFrame :=
  {| columns := columns df;
     rows := map (fun rv => set (fst rv) (snd rv)) (combine (rows df) series) |}.

Definition path_2013 : string :=
  "Datasets/01_District_wise_crimes_committed_IPC_2013.csv".
Definition path_2001_2012 : string :=
  "Datasets/01_District_wise_crimes_committed_IPC_2001_2012.csv".

Definition load_data (fs : FileSystem) : Result DataFrame :=
  ipc_2013 <- pd_read_csv fs path_2013 ;;
  ipc_2001_2012 <- pd_read_csv fs path_2001_2012 ;;
  let ipc_data := pd_concat ipc_2001_2012 ipc_2013 in
  years <- mapM to_datetime_year (map YEAR (rows ipc_data)) ;;
  let ipc_data := setitem with_YEAR ipc_data years in
  let ipc_data :=
    setitem with_STATE_UT ipc_data (map strip (map STATE_UT (rows ipc_data))) in
  let ipc_data :=
    setitem with_DISTRICT ipc_data (map strip (map DISTRICT (rows ipc_data))) in
  Ok ipc_data.

(** What the loader does to one row. *)
Definition normalise (r : Row) : Row :=
  {| STATE_UT := strip (STATE_UT r); DISTRICT := strip (DISTRICT r);
     YEAR := YEAR r; cells := cells r |}.

(** ** The dashboard: filters and the three aggregations *)

(** The label-to-column dictionary, in insertion order. *)
Definition crime_types : list (string * string) :=
  [ ("Murder", "MURDER");
    ("Rape", "RAPE");
    ("Kidnapping & Abduction", "KIDNAPPING & ABDUCTION");
    ("Robbery", "ROBBERY");
    ("Burglary", "BURGLARY");
    ("Theft", "THEFT");
    ("Riots", "RIOTS");
    ("Dowry Deaths", "DOWRY DEATHS");
    ("Assault on Women", "ASSAULT ON WOMEN WITH INTENT TO OUTRAGE HER MODESTY");
    ("Cruelty by Husband", "CRUELTY BY HUSBAND OR HIS RELATIVES") ].

Definition dict_keys (d : list (string * string)) : list string := map fst d.
Definition dict_values (d : list (string * string)) : list string := map snd d.

(** [d[k]]. *)
Fixpoint dict_getitem (d : list (string * string)) (k : string) : Result string :=
  match d with
  | [] => Raise (KeyError [k])
  | (k', v) :: d' => if String.eqb k k' then Ok v else dict_getitem d' k
  end.

(** The values of the three sidebar widgets. *)
Record Selection : Type := mkSelection {
  selected_year : Z;
  selected_state : string;
  selected_crime : string
}.

Definition filtered_data (data : DataFrame) (sel : Selection) : DataFrame :=
  let filtered_data := getitem_mask data (fun r => YEAR r =? selected_year sel) in
  if negb (String.eqb (selected_state sel) "All") then
    getitem_mask filtered_data
      (fun r => String.eqb (STATE_UT r) (selected_state sel))
  else filtered_data.

Definition state_data (data : DataFrame) (sel : Selection) : Result (Table string) :=
  column <- dict_getitem crime_types (selected_crime sel) ;;
  groupby_sum String.eqb String.leb STATE_UT "STATE/UT"
    (filtered_data data sel) column.

Definition yearly_data (data : DataFrame) (sel : Selection) : Result (Table Z) :=
  column <- dict_getitem crime_types (selected_crime sel) ;;
  groupby_sum Z.eqb Z.leb YEAR "YEAR" data column.

Definition category_data (data : DataFrame) (sel : Selection) : Result (Table string) :=
  counts <- getitem_list data (dict_values crime_types) ;;
  let category_data := reset_index (frame_sum counts) in
  category_data <- set_columns category_data ["Category"; "Count"] ;;
  setitem_first category_data (dict_keys crime_types).

(** The rows a selection keeps, in the words of the specification: the
    year is the selected one, and the state is the selected one unless
    the selection is [All]. *)
Definition kept (sel : Selection) (r : Row) : bool :=
  (YEAR r =? selected_year sel)
  && (String.eqb (selected_state sel) "All"
      || String.eqb (STATE_UT r) (selected_state sel)).

(** The frame has every count column the dictionary names. *)
Definition has_crime_columns (data : DataFrame) : bool :=
  forallb (has_column data) (dict_values crime_types).

(** The three tables one run of the script hands to the charts. *)
Record Tables : Type := mkTables {
  StateTotals : Table string;
  YearTotals : Table Z;
  CategoryTotals : Table string
}.

Definition aggregate (data : DataFrame) (sel : Selection) : Result Tables :=
  s <- state_data data sel ;;
  y <- yearly_data data sel ;;
  c <- category_data data sel ;;
  Ok {| StateTotals := s; YearTotals := y; CategoryTotals := c |}.

(** ** Objects and references

    Frames and tables are Python objects: a variable holds a reference,
    indexing and aggregation build new objects, and two statements of the
    script ([category_data.columns = ...], [category_data['Category'] =
    ...]) change an object in place.  A [World] holds the objects
    allocated so far and the entry [st.cache_data] keeps for
    [load_data]. *)

Inductive object : Type :=
  | OFrame (df : DataFrame)
  | OStrTable (t : Table string)
  | OIntTable (t : Table Z).

Definition ref : Type := nat.

Record World : Type := mkWorld {
  objects : list object;
  load_data_cache : option DataFrame
}.

Definition Py (A : Type) : Type := World -> Result A * World.

Definition ret {A : Type} (a : A) : Py A := fun w => (Ok a, w).

Definition lift {A : Type} (r : Result A) : Py A := fun w => (r, w).

Definition bindPy {A B : Type} (m : Py A) (k : A -> Py B) : Py B :=
  fun w =>
    match m w with
    | (Ok a, w') => k a w'
    | (Raise e, w') => (Raise e, w')
    end.

Notation "x <~ m ;; k" := (bindPy m (fun x => k))
  (at level 61, m at next level, right associativity).

(** A new object, at a fresh reference. *)
Definition new (o : object) : Py ref :=
  fun w =>
    (Ok (List.length (objects w)),
     {| objects := objects w ++ [o]; load_data_cache := load_data_cache w |}).

Fixpoint update_nth (l : list object) (n : nat) (o : object) : list object :=
  match l, n with
  | [], _ => []
  | _ :: l', O => o :: l'
  | x :: l', S n' => x :: update_nth l' n' o
  end.

(** The object behind a reference is replaced: an update in place. *)
Definition assign (r : ref) (o : object) : Py unit :=
  fun w =>
    (Ok tt,
     {| objects := update_nth (objects w) r o;
        load_data_cache := load_data_cache w |}).

Definition frame_at (r : ref) : Py DataFrame :=
  fun w =>
    match nth_error (objects w) r with
    | Some (OFrame df) => (Ok df, w)
    | _ => (Raise (TypeError "not a DataFrame"), w)
    end.

Definition str_table_at (r : ref) : Py (Table string) :=
  fun w =>
    match nth_error (objects w) r with
    | Some (OStrTable t) => (Ok t, w)
    | _ => (Raise (TypeError "not a table keyed by str"), w)
    end.

Definition int_table_at (r : ref) : Py (Table Z) :=
  fun w =>
    match nth_error (objects w) r with
    | Some (OIntTable t) => (Ok t, w)
    | _ => (Raise (TypeError "not a table keyed by int"), w)
    end.

(** The pandas calls of the script, on references. *)
Definition py_getitem_mask (df : ref) (mask : Row -> bool) : Py ref :=
  d <~ frame_at df ;;
  new (OFrame (getitem_mask d mask)).

Definition py_getitem_list (df : ref) (cs : list string) : Py ref :=
  d <~ frame_at df ;;
  d' <~ lift (getitem_list d cs) ;;
  new (OFrame d').

Definition py_groupby_sum_str (df : ref) (key : Row -> string)
    (keyname c : string) : Py ref :=
  d <~ frame_at df ;;
  t <~ lift (groupby_sum String.eqb String.leb key keyname d c) ;;
  new (OStrTable t).

Definition py_groupby_sum_int (df : ref) (key : Row -> Z)
    (keyname c : string) : Py ref :=
  d <~ frame_at df ;;
  t <~ lift (groupby_sum Z.eqb Z.leb key keyname d c) ;;
  new (OIntTable t).

Definition py_sum_reset_index (df : ref) : Py ref :=
  d <~ frame_at df ;;
  new (OStrTable (reset_index (frame_sum d))).

Definition py_set_columns (t : ref) (names : list string) : Py unit :=
  tb <~ str_table_at t ;;
  tb' <~ lift (set_columns tb names) ;;
  assign t (OStrTable tb').

Definition py_setitem_first (t : ref) (values : list string) : Py unit :=
  tb <~ str_table_at t ;;
  tb' <~ lift (setitem_first tb values) ;;
  assign t (OStrTable tb').

(** [load_data] under [@st.cache_data]: the first successful call stores
    its result; every call hands out a copy of the stored frame. *)
Definition cached_load_data (fs : FileSystem) : Py ref :=
  fun w =>
    match load_data_cache w with
    | Some df => new (OFrame df) w
    | None =>
        match load_data fs with
        | Ok df =>
            new (OFrame df) {| objects := objects w; load_data_cache := Some df |}
        | Raise e => (Raise e, w)
        end
    end.

(** The three tabs, statement by statement. *)
Definition tab1 (data : ref) (sel : Selection) : Py ref :=
  filtered <~ py_getitem_mask data (fun r => YEAR r =? selected_year sel) ;;
  filtered <~
    (if negb (String.eqb (selected_state sel) "All") then
       py_getitem_mask filtered
         (fun r => String.eqb (STATE_UT r) (selected_state sel))
     else ret filtered) ;;
  column <~ lift (dict_getitem crime_types (selected_crime sel)) ;;
  py_groupby_sum_str filtered STATE_UT "STATE/UT" column.

Definition tab2 (data : ref) (sel : Selection) : Py ref :=
  column <~ lift (dict_getitem crime_types (selected_crime sel)) ;;
  py_groupby_sum_int data YEAR "YEAR" column.

Definition tab3 (data : ref) : Py ref :=
  counts <~ py_getitem_list data (dict_values crime_types) ;;
  category <~ py_sum_reset_index counts ;;
  _ <~ py_set_columns category ["Category"; "Count"] ;;
  _ <~ py_setitem_first category (dict_keys crime_types) ;;
  ret category.

(** The tabs in script order; each table is read when its chart is
    drawn. *)
Definition run_tabs (data : ref) (sel : Selection) : Py Tables :=
  state <~ tab1 data sel ;;
  s <~ str_table_at state ;;
  yearly <~ tab2 data sel ;;
  y <~ int_table_at yearly ;;
  category <~ tab3 data ;;
  c <~ str_table_at category ;;
  ret {| StateTotals := s; YearTotals := y; CategoryTotals := c |}.

(** One run of the script. *)
Definition dashboard (fs : FileSystem) (sel : Selection) : Py Tables :=
  data <~ cached_load_data fs ;;
  run_tabs data sel.

(** [w'] holds every object of [w] at its reference, unchanged, and the
    same cache entry. *)
Definition extends (w w' : World) : Prop :=
  (exists extra, objects w' = objects w ++ extra)
  /\ load_data_cache w' = load_data_cache w.

(** What a call that returns a reference to a table leaves behind. *)
Definition returns_table (A : Type) (wrap : A -> object) (spec : Result A)
    (w : World) (out : Result ref * World) : Prop :=
  extends w (snd out) /\
  match fst out, spec with
  | Ok l, Ok t => nth_error (objects (snd out)) l = Some (wrap t)
  | Raise e, Raise e' => e = e'
  | _, _ => False
  end.

(** The frame behind the reference a loader call returned. *)
Definition loaded_frame (out : Result ref * World) : Result DataFrame :=
  match fst out with
  | Ok l =>
      match nth_error (objects (snd out)) l with
      | Some (OFrame df) => Ok df
      | _ => Raise (TypeError "not a DataFrame")
      end
  | Raise e => Raise e
  end.

(** The frame a loader call works from: the cache entry when there is one,
    the files otherwise. *)
Definition load_source (fs : FileSystem) (w : World) : Result DataFrame :=
  match load_data_cache w with
  | Some df => Ok df
  | None => load_data fs
  end.

(** ** The sidebar: what the widgets are built from *)

(** [Series.min()] and [Series.max()]: NaN, here [None], on a series
    without values. *)
Fixpoint series_min (l : list Z) : option Z :=
  match l with
  | [] => None
  | x :: l' =>
      match series_min l' with
      | None => Some x
      | Some m => Some (Z.min x m)
      end
  end.

Fixpoint series_max (l : list Z) : option Z :=
  match l with
  | [] => None
  | x :: l' =>
      match series_max l' with
      | None => Some x
      | Some m => Some (Z.max x m)
      end
  end.

(** [int(x)] on the result of [min] or [max]: NaN cannot be converted. *)
Definition py_int (x : option Z) : Result Z :=
  match x with
  | Some z => Ok z
  | None => Raise (ValueError "cannot convert float NaN to integer")
  end.

(** The arguments of the year slider. *)
Record Slider : Type := mkSlider {
  min_value : Z;
  max_value : Z;
  value : Z
}.

(** [st.slider(label, min_value=lo, max_value=hi, value=v)]: a slider
    needs a range, and Streamlit refuses a minimum that is not below the
    maximum. *)
Definition st_slider (lo hi v : Z) : Result Slider :=
  if lo <? hi then Ok {| min_value := lo; max_value := hi; value := v |}
  else Raise (StreamlitInvalidMinMaxError lo hi).

Definition year_slider (data : DataFrame) : Result Slider :=
  lo <- py_int (series_min (map YEAR (rows data))) ;;
  hi <- py_int (series_max (map YEAR (rows data))) ;;
  v <- py_int (series_max (map YEAR (rows data))) ;;
  st_slider lo hi v.

(** [sorted(l)] on strings that are pairwise distinct. *)
Definition sorted (l : list string) : list string := sort_keys String.leb l.

(** The options of the state box:
    [['All'] + sorted(data['STATE/UT'].unique().tolist())]. *)
Definition state_options (data : DataFrame) : list string :=
  ["All"] ++ sorted (unique String.eqb (map STATE_UT (rows data))).

(** The options of the crime box: [list(crime_types.keys())]. *)
Definition crime_options : list string := dict_keys crime_types.

(** A selection with another state, or another year, chosen. *)
Definition choose_state (sel : Selection) (s : string) : Selection :=
  {| selected_year := selected_year sel; selected_state := s;
     selected_crime := selected_crime sel |}.

Definition choose_year (sel : Selection) (y : Z) : Selection :=
  {| selected_year := y; selected_state := selected_state sel;
     selected_crime := selected_crime sel |}.

(** Every character of the string is whitespace. *)
Fixpoint all_space (s : string) : bool :=
  match s with
  | EmptyString => true
  | String c s' => isspace c && all_space s'
  end.

(** ** Sample data *)

Definition ten_columns : list string := dict_values crime_types.

Definition sample_row (state district : string) (year murder : Z) : Row :=
  {| STATE_UT := state; DISTRICT := district; YEAR := year;
     cells := combine ten_columns
                [murder; 1; 2; 3; 4; 2 * murder; 0; 1; 2; 3] |}.

Definition maharashtra_table : DataFrame :=
  {| columns := ten_columns;
     rows := [ sample_row "Maharashtra" "Pune" 2013 10;
               sample_row "Maharashtra" "Nagpur" 2013 5 ] |}.

Definition sample_2001_2012 : DataFrame :=
  {| columns := ten_columns;
     rows := [ sample_row " Kerala" "Kollam " 2001 7;
               sample_row "Assam" "Dhubri" 2012 3 ] |}.

Definition sample_2013 : DataFrame :=
  {| columns := ten_columns;
     rows := [ sample_row "Kerala " " Kollam" 2013 4;
               sample_row "Assam" "Dhubri" 2013 3 ] |}.

Definition sample_fs : FileSystem :=
  fun path =>
    if String.eqb path path_2013 then Some sample_2013
    else if String.eqb path path_2001_2012 then Some sample_2001_2012
    else None.

(** A source that carries only the [THEFT] column: Kerala reports for
    2012, Assam for 2013. *)
Definition theft_only_table : DataFrame :=
  {| columns := ["THEFT"];
     rows := [ {| STATE_UT := "Kerala"; DISTRICT := "Kollam"; YEAR := 2012;
                  cells := [("THEFT", 8)] |};
               {| STATE_UT := "Assam"; DISTRICT := "Dhubri"; YEAR := 2013;
                  cells := [("THEFT", 6)] |} ] |}.

Definition empty_world : World := {| objects := []; load_data_cache := None |}.

Definition murder_2013 : Selection :=
  {| selected_year := 2013; selected_state := "All"; selected_crime := "Murder" |}.

Definition murder_2013_nowhere : Selection :=
  {| selected_year := 2013; selected_state := "Nowhere";
     selected_crime := "Murder" |}.

Definition murder_2013_kerala : Selection :=
  {| selected_year := 2013; selected_state := "Kerala";
     selected_crime := "Murder" |}.

Definition murder_2013_assam : Selection :=
  {| selected_year := 2013; selected_state := "Assam";
     selected_crime := "Murder" |}.

Definition theft_2001_kerala : Selection :=
  {| selected_year := 2001; selected_state := "Kerala";
     selected_crime := "Theft" |}.

(** * Properties *)

(** ** [str.strip] *)

Lemma lstrip_no_leading (s : string) :
  is_space_char (first_char (lstrip s)) = false.
Proof.
  induction s as [|c s IH]; simpl; [reflexivity|].
  destruct (isspace c) eqn:E; [exact IH|].
  simpl. exact E.
Qed.

Lemma rstrip_no_trailing (s : string) :
  is_space_char (last_char (rstrip s)) = false.
Proof.
  induction s as [|c s IH]; simpl; [reflexivity|].
  destruct (rstrip s) as [|c' t] eqn:E.
  - destruct (isspace c) eqn:Ec; simpl; [reflexivity | exact Ec].
  - exact IH.
Qed.

Lemma rstrip_keeps_first (s : string) :
  is_space_char (first_char s) = false ->
  is_space_char (first_char (rstrip s)) = false.
Proof.
  destruct s as [|c s]; simpl; [reflexivity|].
  intros Hc. destruct (rstrip s); [rewrite Hc|]; simpl; exact Hc.
Qed.

Lemma strip_trimmed (s : string) : trimmed (strip s).
Proof.
  split.
  - apply rstrip_keeps_first, lstrip_no_leading.
  - apply rstrip_no_trailing.
Qed.

(** ** The loader *)

Lemma bind_Ok {A B : Type} (m : Result A) (k : A -> Result B) (b : B) :
  bind m k = Ok b -> exists a, m = Ok a /\ k a = Ok b.
Proof.
  destruct m as [a|e]; simpl; intros H; [eauto | discriminate].
Qed.

Lemma to_datetime_year_Ok (y z : Z) :
  to_datetime_year y = Ok z -> z = y /\ 1000 <= y <= 9999.
Proof.
  unfold to_datetime_year.
  destruct ((1000 <=? y) && (y <=? 9999)) eqn:E; [|discriminate].
  intros H. inversion H. split; [reflexivity | lia].
Qed.

Lemma mapM_to_datetime_year_Ok (ys zs : list Z) :
  mapM to_datetime_year ys = Ok zs ->
  zs = ys /\ Forall (fun y => 1000 <= y <= 9999) ys.
Proof.
  revert zs. induction ys as [|y ys IH]; simpl; intros zs H.
  - inversion H. split; constructor.
  - apply bind_Ok in H. destruct H as [z [Hz H]].
    apply bind_Ok in H. destruct H as [zs' [Hzs H]].
    inversion H; subst. apply to_datetime_year_Ok in Hz.
    destruct (IH _ Hzs) as [-> HF]. destruct Hz as [-> Hy].
    split; [reflexivity | constructor; assumption].
Qed.


Lemma load_data_rows (fs : FileSystem) (data : DataFrame) :
  load_data fs = Ok data ->
  exists ipc_2001_2012 ipc_2013,
    fs path_2001_2012 = Some ipc_2001_2012 /\
    fs path_2013 = Some ipc_2013 /\
    Forall (fun y => 1000 <= y <= 9999)
      (map YEAR (rows (pd_concat ipc_2001_2012 ipc_2013))) /\
    rows data = map normalise (rows (pd_concat ipc_2001_2012 ipc_2013)).
Proof.
  unfold load_data, pd_read_csv. intros H.
  destruct (fs path_2013) as [b|] eqn:Eb; [|discriminate].
  destruct (fs path_2001_2012) as [a|] eqn:Ea; [|discriminate].
  simpl in H. apply bind_Ok in H. destruct H as [years [Hy H]].
  apply mapM_to_datetime_year_Ok in Hy. destruct Hy as [-> HF].
  exists a, b. repeat split; try assumption.
  inversion H; subst; clear H HF.
  unfold setitem, pd_concat; simpl rows.
  induction (map (astype_float64 b) (rows a) ++ map (astype_float64 a) (rows b))
    as [|r l IH]; simpl; [reflexivity|].
  f_equal. exact IH.
Qed.


Lemma to_float64_small (z : Z) : Z.abs z < 2 ^ 53 -> to_float64 z = z.
Proof.
  intros H. unfold to_float64.
  assert (Hlog : Z.log2 (Z.abs z) - 52 <= 0).
  { destruct (Z.eq_dec (Z.abs z) 0) as [E|E]; [rewrite E; simpl; lia|].
    assert (Z.log2 (Z.abs z) < 53) by (apply Z.log2_lt_pow2; lia). lia. }
  apply Z.leb_le in Hlog. rewrite Hlog. reflexivity.
Qed.

(** ** Grouping *)

Lemma wrap64_add_r (a b : Z) : wrap64 (a + wrap64 b) = wrap64 (a + b).
Proof.
  unfold wrap64. f_equal.
  replace (a + ((b + 2 ^ 63) mod 2 ^ 64 - 2 ^ 63) + 2 ^ 63)
    with (a + (b + 2 ^ 63) mod 2 ^ 64) by lia.
  rewrite Z.add_mod_idemp_r by lia. f_equal. lia.
Qed.

Lemma wrap64_small (z : Z) : - 2 ^ 63 <= z < 2 ^ 63 -> wrap64 z = z.
Proof.
  intros H. unfold wrap64. rewrite Z.mod_small by lia. lia.
Qed.

Lemma sum_wraps_total (l : list Z) : sum l = wrap64 (total l).
Proof.
  induction l as [|x l IH]; [reflexivity|].
  cbn [sum total fold_right]. fold (sum l). fold (total l).
  rewrite IH. apply wrap64_add_r.
Qed.

Lemma wrap64_total_map (A : Type) (f : A -> Z) (l : list A) :
  wrap64 (total (map (fun a => wrap64 (f a)) l)) = wrap64 (total (map f l)).
Proof.
  induction l as [|a l IH]; [reflexivity|].
  cbn [map total fold_right].
  fold (total (map (fun a => wrap64 (f a)) l)). fold (total (map f l)).
  rewrite <- wrap64_add_r, IH, wrap64_add_r.
  rewrite Z.add_comm, wrap64_add_r. f_equal. lia.
Qed.

Lemma total_map_add (A : Type) (f g : A -> Z) (l : list A) :
  total (map (fun a => f a + g a) l) = total (map f l) + total (map g l).
Proof.
  unfold total. induction l as [|a l IH]; simpl; [reflexivity|].
  rewrite IH. lia.
Qed.

Lemma total_map_zero (A : Type) (l : list A) : total (map (fun _ => 0) l) = 0.
Proof.
  unfold total. induction l as [|a l IH]; simpl; [reflexivity | exact IH].
Qed.

Section GroupByFacts.
Variable K : Type.
Variable eqb : K -> K -> bool.
Variable leb : K -> K -> bool.
Hypothesis eqb_eq : forall a b : K, eqb a b = true <-> a = b.

Lemma eqb_refl (a : K) : eqb a a = true.
Proof. apply eqb_eq. reflexivity. Qed.

Lemma unique_In (l : list K) (k : K) : In k (unique eqb l) <-> In k l.
Proof.
  induction l as [|x l IH]; simpl; [tauto|].
  rewrite filter_In, IH. split.
  - intros [H | [H _]]; auto.
  - intros [H | H]; [auto|].
    destruct (eqb k x) eqn:E.
    + left. symmetry. apply eqb_eq. exact E.
    + right. split; [exact H | reflexivity].
Qed.

Lemma unique_NoDup (l : list K) : NoDup (unique eqb l).
Proof.
  induction l as [|x l IH]; simpl; constructor.
  - rewrite filter_In. intros [_ H].
    rewrite eqb_refl in H. discriminate.
  - apply NoDup_filter. exact IH.
Qed.

Lemma insert_sorted_perm (k : K) (l : list K) :
  Permutation (insert_sorted leb k l) (k :: l).
Proof.
  induction l as [|x l IH]; simpl; [apply Permutation_refl|].
  destruct (leb k x); [apply Permutation_refl|].
  apply perm_trans with (x :: k :: l); [apply perm_skip, IH | apply perm_swap].
Qed.

Lemma sort_keys_perm (l : list K) : Permutation (sort_keys leb l) l.
Proof.
  induction l as [|x l IH]; simpl; [apply perm_nil|].
  apply perm_trans with (x :: sort_keys leb l).
  - apply insert_sorted_perm.
  - apply perm_skip, IH.
Qed.

(** With a total comparison the keys come out in ascending order. *)
Lemma insert_sorted_Sorted (k : K) (l : list K) :
  (forall a b : K, leb a b = true \/ leb b a = true) ->
  Sorted (fun a b => leb a b = true) l ->
  Sorted (fun a b => leb a b = true) (insert_sorted leb k l).
Proof.
  intros Htotal. induction 1 as [|x l Hl IH Hx]; simpl.
  - repeat constructor.
  - destruct (leb k x) eqn:E.
    + constructor; [constructor; assumption | constructor; exact E].
    + constructor; [exact IH|].
      assert (Hxk : leb x k = true).
      { destruct (Htotal k x) as [H | H]; [congruence | exact H]. }
      destruct l as [|y l]; simpl; [constructor; exact Hxk|].
      destruct (leb k y); constructor; [exact Hxk|].
      inversion Hx; assumption.
Qed.

Lemma sort_keys_Sorted (l : list K) :
  (forall a b : K, leb a b = true \/ leb b a = true) ->
  Sorted (fun a b => leb a b = true) (sort_keys leb l).
Proof.
  intros Htotal. induction l as [|k l IH]; simpl; [constructor|].
  apply insert_sorted_Sorted; assumption.
Qed.

Variable key : Row -> K.

Lemma group_keys_NoDup (rs : list Row) : NoDup (group_keys eqb leb key rs).
Proof.
  unfold group_keys.
  apply Permutation_NoDup with (unique eqb (map key rs)).
  - apply Permutation_sym, sort_keys_perm.
  - apply unique_NoDup.
Qed.

Lemma group_keys_In (rs : list Row) (k : K) :
  In k (group_keys eqb leb key rs) <-> exists r, In r rs /\ key r = k.
Proof.
  unfold group_keys.
  assert (Hk : In k (map key rs) <-> exists r, In r rs /\ key r = k).
  { rewrite in_map_iff. split; intros [r [H1 H2]]; exists r; tauto. }
  split; intros H.
  - apply Hk, unique_In.
    apply Permutation_in with (1 := sort_keys_perm _). exact H.
  - apply Hk, unique_In in H.
    apply Permutation_in with (1 := Permutation_sym (sort_keys_perm _)).
    exact H.
Qed.

Lemma total_indicator (x : K) (v : Z) (ks : list K) :
  NoDup ks ->
  total (map (fun k => if eqb x k then v else 0) ks)
  = if existsb (eqb x) ks then v else 0.
Proof.
  induction 1 as [|k ks Hk Hnd IH]; [reflexivity|].
  cbn [map existsb]. change (total (?a :: ?l)) with (a + total l).
  rewrite IH. destruct (eqb x k) eqn:E; simpl; [|reflexivity].
  apply eqb_eq in E. subst k.
  destruct (existsb (eqb x) ks) eqn:Ex; [|lia].
  apply existsb_exists in Ex. destruct Ex as [y [Hy Exy]].
  apply eqb_eq in Exy. subst y. contradiction.
Qed.

(** The group sums add up to the sum over all rows, whatever the order
    of the groups. *)
Lemma total_of_group_totals (val : Row -> Z) (rs : list Row) (ks : list K) :
  NoDup ks ->
  (forall r, In r rs -> In (key r) ks) ->
  total (map (fun k => total (map val (group eqb key k rs))) ks)
  = total (map val rs).
Proof.
  intros Hnd. induction rs as [|r rs IH]; intros Hin.
  - simpl. apply total_map_zero.
  - rewrite (map_ext _ (fun k =>
               (if eqb (key r) k then val r else 0)
               + total (map val (group eqb key k rs)))).
    + rewrite total_map_add, total_indicator by exact Hnd.
      rewrite IH by (intros r' Hr'; apply Hin; right; exact Hr').
      replace (existsb (eqb (key r)) ks) with true; [reflexivity|].
      symmetry. apply existsb_exists. exists (key r). split.
      * apply Hin. left. reflexivity.
      * apply eqb_refl.
    + intros k. unfold group. simpl.
      destruct (eqb (key r) k); reflexivity.
Qed.

Lemma groupby_sum_total (df : DataFrame) (c : string) :
  sum (map snd
         (map (fun k => (k, sum (map (cell c) (group eqb key k (rows df)))))
              (group_keys eqb leb key (rows df))))
  = sum (map (cell c) (rows df)).
Proof.
  rewrite map_map. simpl. rewrite !sum_wraps_total.
  rewrite (map_ext _ (fun k =>
             wrap64 (total (map (cell c) (group eqb key k (rows df))))))
    by (intros k; apply sum_wraps_total).
  rewrite wrap64_total_map. f_equal.
  apply total_of_group_totals.
  - apply group_keys_NoDup.
  - intros r Hr. apply group_keys_In. exists r. split; [exact Hr | reflexivity].
Qed.
End GroupByFacts.

(** ** The filters *)

Lemma filter_filter (A : Type) (f g : A -> bool) (l : list A) :
  filter g (filter f l) = filter (fun a => f a && g a) l.
Proof.
  induction l as [|a l IH]; simpl; [reflexivity|].
  destruct (f a); simpl; [destruct (g a)|]; rewrite IH; reflexivity.
Qed.

Lemma filtered_data_kept (data : DataFrame) (sel : Selection) :
  rows (filtered_data data sel) = filter (kept sel) (rows data).
Proof.
  unfold filtered_data, kept.
  destruct (String.eqb (selected_state sel) "All"); simpl.
  - apply filter_ext. intros r. rewrite andb_true_r. reflexivity.
  - apply filter_filter.
Qed.

Lemma getitem_mask_has_column (df : DataFrame) (mask : Row -> bool) (c : string) :
  has_column (getitem_mask df mask) c = has_column df c.
Proof. reflexivity. Qed.

Lemma filtered_data_columns (data : DataFrame) (sel : Selection) (c : string) :
  has_column (filtered_data data sel) c = has_column data c.
Proof.
  unfold filtered_data.
  destruct (negb (String.eqb (selected_state sel) "All")); reflexivity.
Qed.

Lemma dict_getitem_In (d : list (string * string)) (k v : string) :
  dict_getitem d k = Ok v -> In (k, v) d.
Proof.
  induction d as [|[k' v'] d IH]; simpl; [discriminate|].
  destruct (String.eqb k k') eqn:E.
  - intros H. inversion H. apply String.eqb_eq in E. subst. left. reflexivity.
  - intros H. right. apply IH, H.
Qed.

Lemma state_data_Ok (data : DataFrame) (sel : Selection) (column : string) :
  dict_getitem crime_types (selected_crime sel) = Ok column ->
  has_column data column = true ->
  state_data data sel =
    Ok {| header := ("STATE/UT", column);
          body := map (fun s => (s, sum (map (cell column)
                                   (group String.eqb STATE_UT s
                                      (filter (kept sel) (rows data))))))
                      (group_keys String.eqb String.leb STATE_UT
                         (filter (kept sel) (rows data))) |}.
Proof.
  intros Hd Hc. unfold state_data, groupby_sum. rewrite Hd. simpl.
  rewrite filtered_data_columns, Hc, filtered_data_kept. reflexivity.
Qed.

Lemma yearly_data_Ok (data : DataFrame) (sel : Selection) (column : string) :
  dict_getitem crime_types (selected_crime sel) = Ok column ->
  has_column data column = true ->
  yearly_data data sel =
    Ok {| header := ("YEAR", column);
          body := map (fun y => (y, sum (map (cell column)
                                   (group Z.eqb YEAR y (rows data)))))
                      (group_keys Z.eqb Z.leb YEAR (rows data)) |}.
Proof.
  intros Hd Hc. unfold yearly_data, groupby_sum. rewrite Hd. simpl.
  rewrite Hc. reflexivity.
Qed.

Lemma in_body_keys (K : Type) (f : K -> Z) (ks : list K) (k : K) (v : Z) :
  In (k, v) (map (fun k => (k, f k)) ks) -> In k ks /\ v = f k.
Proof.
  rewrite in_map_iff. intros [k' [H Hin]]. inversion H; subst. tauto.
Qed.

Lemma map_fst_body (K : Type) (f : K -> Z) (ks : list K) :
  map fst (map (fun k => (k, f k)) ks) = ks.
Proof. rewrite map_map. simpl. apply map_id. Qed.

(** C1.  StateTotals keeps the rows of the selected year (and of the
    selected state unless it is [All]), has exactly one row per state
    among the kept rows, and gives each state the sum of the selected
    crime column over the kept rows of that state; the two Maharashtra
    rows of 2013 with 10 and 5 murders give the one row
    (Maharashtra, 15). *)
Theorem state_totals_grouped_sums :
  (forall (data : DataFrame) (sel : Selection) (column : string),
     dict_getitem crime_types (selected_crime sel) = Ok column ->
     has_column data column = true ->
     exists t,
       state_data data sel = Ok t /\
       NoDup (map fst (body t)) /\
       (forall s, In s (map fst (body t)) <->
                  exists r, In r (rows data) /\ kept sel r = true
                            /\ STATE_UT r = s) /\
       (forall s v, In (s, v) (body t) ->
          v = sum (map (cell column)
                     (filter (fun r => kept sel r && String.eqb (STATE_UT r) s)
                        (rows data)))))
  /\ state_data maharashtra_table murder_2013
     = Ok {| header := ("STATE/UT", "MURDER"); body := [("Maharashtra", 15)] |}.
Proof.
  split; [|reflexivity].
  intros data sel column Hd Hc.
  eexists. split; [apply state_data_Ok; eassumption|]. simpl body.
  rewrite map_fst_body. split; [|split].
  - apply group_keys_NoDup. exact String.eqb_eq.
  - intros s. rewrite (@group_keys_In _ _ String.leb String.eqb_eq). split.
    + intros [r [Hr Hs]]. apply filter_In in Hr. exists r. tauto.
    + intros [r [Hr [Hk Hs]]]. exists r. split; [|exact Hs].
      apply filter_In. tauto.
  - intros s v Hin. apply in_body_keys in Hin. destruct Hin as [_ ->].
    unfold group. rewrite filter_filter. reflexivity.
Qed.

(** Witness for C1: the Maharashtra table and the murder column. *)
Lemma state_totals_grouped_sums_witness :
  dict_getitem crime_types (selected_crime murder_2013) = Ok "MURDER" /\
  has_column maharashtra_table "MURDER" = true /\
  exists t, state_data maharashtra_table murder_2013 = Ok t /\
            NoDup (map fst (body t)).
Proof.
  split; [reflexivity|]. split; [reflexivity|].
  destruct (proj1 state_totals_grouped_sums maharashtra_table murder_2013
              "MURDER" eq_refl eq_refl) as [t [H1 [H2 _]]].
  exists t. split; assumption.
Defined.

Lemma state_data_missing (data : DataFrame) (sel : Selection) (column : string) :
  dict_getitem crime_types (selected_crime sel) = Ok column ->
  has_column data column = false ->
  state_data data sel = Raise (KeyError [column]).
Proof.
  intros Hd Hc. unfold state_data, groupby_sum. rewrite Hd. simpl.
  rewrite filtered_data_columns, Hc. reflexivity.
Qed.

(** C3.  The values of StateTotals add up to the sum of the selected crime
    column over the rows the selection keeps: the two sides fail alike
    when the column is not there, and otherwise both exist and are
    equal. *)
Theorem state_totals_sum_consistent (data : DataFrame) (sel : Selection) :
  fmap (fun t => sum (map snd (body t))) (state_data data sel)
  = (column <- dict_getitem crime_types (selected_crime sel) ;;
     fmap sum (getitem (getitem_mask data (kept sel)) column))
  /\ (forall column,
        dict_getitem crime_types (selected_crime sel) = Ok column ->
        has_column data column = true ->
        exists t,
          state_data data sel = Ok t /\
          sum (map snd (body t))
          = sum (map (cell column) (filter (kept sel) (rows data)))).
Proof.
  split.
  - destruct (dict_getitem crime_types (selected_crime sel)) as [column|e] eqn:Hd.
    + cbn [bind]. unfold getitem. rewrite getitem_mask_has_column.
      destruct (has_column data column) eqn:Hc.
      * rewrite (state_data_Ok _ _ Hd Hc). simpl. f_equal.
        apply (@groupby_sum_total _ _ String.leb String.eqb_eq STATE_UT
                 (getitem_mask data (kept sel)) column).
      * rewrite (state_data_missing _ _ Hd Hc). reflexivity.
    + unfold state_data. rewrite Hd. reflexivity.
  - intros column Hd Hc. eexists. split; [apply state_data_Ok; eassumption|].
    apply (@groupby_sum_total _ _ String.leb String.eqb_eq STATE_UT
             (getitem_mask data (kept sel)) column).
Qed.

(** Witness for C3: the sample of 2013, all states, murders. *)
Lemma state_totals_sum_consistent_witness :
  exists t,
    state_data sample_2013 murder_2013 = Ok t /\
    sum (map snd (body t)) = 7.
Proof.
  destruct (proj2 (state_totals_sum_consistent sample_2013 murder_2013)
              "MURDER" eq_refl eq_refl) as [t [H1 H2]].
  exists t. split; [exact H1 | rewrite H2; reflexivity].
Defined.

Lemma dict_values_In (d : list (string * string)) (k v : string) :
  In (k, v) d -> In v (dict_values d).
Proof. intros H. apply (in_map snd) in H. exact H. Qed.

Lemma category_data_missing (data : DataFrame) (sel : Selection) (column : string) :
  In column (dict_values crime_types) ->
  has_column data column = false ->
  exists missing,
    category_data data sel = Raise (KeyError missing) /\ In column missing.
Proof.
  intros Hin Hc. unfold category_data, getitem_list.
  assert (Hm : In column (filter (fun c => negb (has_column data c))
                            (dict_values crime_types))).
  { apply filter_In. rewrite Hc. auto. }
  destruct (filter _ (dict_values crime_types)) as [|m ms]; [destruct Hm|].
  exists (m :: ms). split; [reflexivity | exact Hm].
Qed.

(** C5.  When the column behind the selected crime type is not a column of
    the table, the aggregation raises [KeyError] for that column: the
    state totals, the year totals and the category totals all raise, and
    so does the aggregation as a whole; no table is returned. *)
Theorem missing_crime_column_raises (data : DataFrame) (sel : Selection)
    (column : string) :
  dict_getitem crime_types (selected_crime sel) = Ok column ->
  has_column data column = false ->
  state_data data sel = Raise (KeyError [column]) /\
  yearly_data data sel = Raise (KeyError [column]) /\
  (exists missing,
     category_data data sel = Raise (KeyError missing) /\ In column missing) /\
  aggregate data sel = Raise (KeyError [column]).
Proof.
  intros Hd Hc. split; [|split; [|split]].
  - apply state_data_missing; assumption.
  - unfold yearly_data, groupby_sum. rewrite Hd. simpl. rewrite Hc. reflexivity.
  - apply category_data_missing; [|exact Hc].
    apply dict_values_In with (k := selected_crime sel).
    apply dict_getitem_In. exact Hd.
  - unfold aggregate. rewrite (state_data_missing _ _ Hd Hc). reflexivity.
Qed.

(** Witness for C5: murders asked of a source that has only thefts. *)
Lemma missing_crime_column_raises_witness :
  has_column theft_only_table "MURDER" = false /\
  aggregate theft_only_table murder_2013 = Raise (KeyError ["MURDER"]).
Proof.
  split; [reflexivity|].
  apply (missing_crime_column_raises theft_only_table murder_2013
           (column := "MURDER")); reflexivity.
Defined.

(** C6 as stated fails: the theft-only source has no row of Kerala for
    2013, so the filters keep no row, and the state totals for murders
    raise [KeyError] instead of being an empty table. *)
Lemma state_totals_empty_counterexample :
  rows (filtered_data theft_only_table murder_2013_kerala) = [] /\
  state_data theft_only_table murder_2013_kerala = Raise (KeyError ["MURDER"]) /\
  ~ (exists t, state_data theft_only_table murder_2013_kerala = Ok t
               /\ body t = []).
Proof.
  split; [reflexivity|]. split; [reflexivity|].
  intros [t [H _]]. discriminate H.
Qed.

Lemma absent_state_keeps_nothing (data : DataFrame) (sel : Selection) :
  selected_state sel <> "All" ->
  (forall r, In r (rows data) -> STATE_UT r <> selected_state sel) ->
  filter (kept sel) (rows data) = [].
Proof.
  intros Hall Habs.
  induction (rows data) as [|r rs IH]; [reflexivity|]. simpl.
  rewrite IH by (intros r' Hr'; apply Habs; right; exact Hr').
  unfold kept.
  destruct (String.eqb_spec (selected_state sel) "All"); [contradiction|].
  destruct (String.eqb_spec (STATE_UT r) (selected_state sel)) as [E|_].
  - exfalso. apply (Habs r); [left; reflexivity | exact E].
  - rewrite andb_false_r. reflexivity.
Qed.

(** C6, amended.  When the table has the column behind the selected crime
    type and the filters keep no row, StateTotals is the empty table and
    nothing is raised; a selected state that no row of the table carries
    is such a case. *)
Theorem state_totals_empty (data : DataFrame) (sel : Selection)
    (column : string) :
  dict_getitem crime_types (selected_crime sel) = Ok column ->
  has_column data column = true ->
  (rows (filtered_data data sel) = [] ->
   state_data data sel = Ok {| header := ("STATE/UT", column); body := [] |})
  /\ (selected_state sel <> "All" ->
      (forall r, In r (rows data) -> STATE_UT r <> selected_state sel) ->
      state_data data sel = Ok {| header := ("STATE/UT", column); body := [] |}).
Proof.
  intros Hd Hc.
  assert (H : filter (kept sel) (rows data) = [] ->
              state_data data sel
              = Ok {| header := ("STATE/UT", column); body := [] |}).
  { intros E. rewrite (state_data_Ok _ _ Hd Hc), E. reflexivity. }
  split.
  - rewrite filtered_data_kept. exact H.
  - intros Hall Habs. apply H, absent_state_keeps_nothing; assumption.
Qed.

(** Witness for C6: the state [Nowhere] asked of the Maharashtra table,
    through either part of the theorem. *)
Lemma state_totals_empty_witness :
  rows (filtered_data maharashtra_table murder_2013_nowhere) = [] /\
  state_data maharashtra_table murder_2013_nowhere
  = Ok {| header := ("STATE/UT", "MURDER"); body := [] |} /\
  state_data maharashtra_table murder_2013_nowhere
  = Ok {| header := ("STATE/UT", "MURDER"); body := [] |}.
Proof.
  split; [reflexivity|]. split.
  - apply (proj1 (state_totals_empty maharashtra_table murder_2013_nowhere
                    (column := "MURDER") eq_refl eq_refl)).
    reflexivity.
  - apply (proj2 (state_totals_empty maharashtra_table murder_2013_nowhere
                    (column := "MURDER") eq_refl eq_refl)).
    + discriminate.
    + intros r [<- | [<- | []]]; discriminate.
Defined.

Lemma NoDup_all_equal (A : Type) (a : A) (l : list A) :
  NoDup l -> (forall x, In x l -> x = a) -> (List.length l <= 1)%nat.
Proof.
  intros Hnd Hall. destruct l as [|x [|y l]]; simpl; try lia.
  exfalso. inversion Hnd as [|? ? Hx _]; subst. apply Hx.
  rewrite (Hall x), (Hall y); simpl; auto.
Qed.

(** C9.  With a selected state other than [All], StateTotals has at most
    one row, and a row it has is the selected state's. *)
Theorem state_totals_single_state (data : DataFrame) (sel : Selection)
    (t : Table string) :
  selected_state sel <> "All" ->
  state_data data sel = Ok t ->
  (List.length (body t) <= 1)%nat /\
  (forall s v, In (s, v) (body t) -> s = selected_state sel).
Proof.
  intros Hall Ht.
  destruct (dict_getitem crime_types (selected_crime sel)) as [column|e] eqn:Hd;
    [|unfold state_data in Ht; rewrite Hd in Ht; discriminate].
  destruct (has_column data column) eqn:Hc;
    [|rewrite (state_data_missing _ _ Hd Hc) in Ht; discriminate].
  rewrite (state_data_Ok _ _ Hd Hc) in Ht. inversion Ht; subst t; clear Ht.
  simpl body.
  assert (Hkeys : forall s,
            In s (group_keys String.eqb String.leb STATE_UT
                    (filter (kept sel) (rows data))) ->
            s = selected_state sel).
  { intros s Hs. apply (@group_keys_In _ _ String.leb String.eqb_eq) in Hs.
    destruct Hs as [r [Hr <-]]. apply filter_In in Hr. destruct Hr as [_ Hk].
    unfold kept in Hk. apply andb_true_iff in Hk. destruct Hk as [_ Hk].
    apply orb_true_iff in Hk. destruct Hk as [Hk | Hk].
    - apply String.eqb_eq in Hk. contradiction.
    - apply String.eqb_eq. exact Hk. }
  split.
  - rewrite length_map. apply NoDup_all_equal with (a := selected_state sel).
    + apply group_keys_NoDup. exact String.eqb_eq.
    + exact Hkeys.
  - intros s v Hin. apply in_body_keys in Hin. apply Hkeys, Hin.
Qed.

(** Witness for C9: Assam selected on the 2013 sample, which also has
    rows of another state. *)
Lemma state_totals_single_state_witness :
  selected_state murder_2013_assam <> "All" /\
  state_data sample_2013 murder_2013_assam
  = Ok {| header := ("STATE/UT", "MURDER"); body := [("Assam", 3)] |} /\
  (List.length [("Assam", 3)] <= 1)%nat.
Proof.
  split; [discriminate|]. split; [reflexivity|].
  apply (state_totals_single_state sample_2013 murder_2013_assam
           (t := {| header := ("STATE/UT", "MURDER");
                    body := [("Assam", 3)] |}));
    [discriminate | reflexivity].
Defined.

(** ** Year totals and category totals *)

Lemma getitem_list_Ok (data : DataFrame) (cs : list string) :
  forallb (has_column data) cs = true ->
  getitem_list data cs = Ok {| columns := cs; rows := rows data |}.
Proof.
  intros H. unfold getitem_list.
  replace (filter (fun c => negb (has_column data c)) cs) with (@nil string);
    [reflexivity|].
  symmetry. induction cs as [|c cs IH]; [reflexivity|].
  simpl in *. apply andb_true_iff in H. destruct H as [Hc Hcs].
  rewrite Hc. simpl. apply IH, Hcs.
Qed.

Lemma category_data_Ok (data : DataFrame) (sel : Selection) :
  has_crime_columns data = true ->
  category_data data sel =
    Ok {| header := ("Category", "Count");
          body := map (fun entry =>
                         (fst entry, sum (map (cell (snd entry)) (rows data))))
                      crime_types |}.
Proof.
  intros H. unfold category_data.
  rewrite (getitem_list_Ok _ _ H). reflexivity.
Qed.

(** C2.  YearTotals depends on the selection through the crime type only,
    and CategoryTotals does not depend on the selection at all: YearTotals
    has one row per year among all rows of the table, with the sum of the
    selected crime column over all rows of that year, whatever year and
    state are selected. *)
Theorem year_and_category_totals_ignore_filters (data : DataFrame)
    (sel1 sel2 : Selection) :
  (selected_crime sel1 = selected_crime sel2 ->
   yearly_data data sel1 = yearly_data data sel2)
  /\ category_data data sel1 = category_data data sel2
  /\ (forall column,
        dict_getitem crime_types (selected_crime sel1) = Ok column ->
        has_column data column = true ->
        exists t,
          yearly_data data sel1 = Ok t /\
          NoDup (map fst (body t)) /\
          (forall y, In y (map fst (body t)) <->
                     exists r, In r (rows data) /\ YEAR r = y) /\
          (forall y v, In (y, v) (body t) ->
             v = sum (map (cell column)
                        (filter (fun r => YEAR r =? y) (rows data))))).
Proof.
  split; [|split].
  - intros Hc. unfold yearly_data. rewrite Hc. reflexivity.
  - reflexivity.
  - intros column Hd Hc.
    eexists. split; [apply yearly_data_Ok; eassumption|]. simpl body.
    rewrite map_fst_body. split; [|split].
    + apply group_keys_NoDup. exact Z.eqb_eq.
    + intros y. apply (@group_keys_In _ _ Z.leb Z.eqb_eq).
    + intros y v Hin. apply in_body_keys in Hin. destruct Hin as [_ ->].
      reflexivity.
Qed.

(** Witness for C2: two selections on the loaded sample that differ in
    year and state. *)
Lemma year_and_category_totals_ignore_filters_witness :
  yearly_data sample_2001_2012 murder_2013
  = yearly_data sample_2001_2012 murder_2013_nowhere
  /\ category_data sample_2001_2012 murder_2013
     = category_data sample_2001_2012 theft_2001_kerala
  /\ exists t, yearly_data sample_2001_2012 murder_2013 = Ok t
               /\ NoDup (map fst (body t)).
Proof.
  split; [|split].
  - apply (proj1 (year_and_category_totals_ignore_filters sample_2001_2012
                    murder_2013 murder_2013_nowhere)).
    reflexivity.
  - apply (proj1 (proj2 (year_and_category_totals_ignore_filters
                           sample_2001_2012 murder_2013 theft_2001_kerala))).
  - destruct (proj2 (proj2 (year_and_category_totals_ignore_filters
                              sample_2001_2012 murder_2013 murder_2013))
                "MURDER" eq_refl eq_refl) as [t [H1 [H2 _]]].
    exists t. split; assumption.
Defined.

(** C7.  CategoryTotals has one row per entry of the crime-type
    dictionary: the row carries the label of the entry and the sum of the
    entry's column over all rows of the table. *)
Theorem category_totals_by_label (data : DataFrame) (sel : Selection) :
  has_crime_columns data = true ->
  category_data data sel =
    Ok {| header := ("Category", "Count");
          body := map (fun entry =>
                         (fst entry, sum (map (cell (snd entry)) (rows data))))
                      crime_types |}.
Proof. apply category_data_Ok. Qed.

(** Witness for C7: the Maharashtra table. *)
Lemma category_totals_by_label_witness :
  has_crime_columns maharashtra_table = true /\
  fmap (fun t => body t) (category_data maharashtra_table murder_2013)
  = Ok [ ("Murder", 15); ("Rape", 2); ("Kidnapping & Abduction", 4);
         ("Robbery", 6); ("Burglary", 8); ("Theft", 30); ("Riots", 0);
         ("Dowry Deaths", 2); ("Assault on Women", 4);
         ("Cruelty by Husband", 6) ].
Proof.
  split; [reflexivity|].
  rewrite (category_totals_by_label maharashtra_table murder_2013 eq_refl).
  reflexivity.
Defined.

(** C10.  On a table that has the ten crime columns, CategoryTotals has
    ten rows, labelled in dictionary order, whatever the rows of the table
    are. *)
Theorem category_totals_ten_rows (data : DataFrame) (sel : Selection) :
  has_crime_columns data = true ->
  exists t,
    category_data data sel = Ok t /\
    List.length (body t) = 10%nat /\
    map fst (body t)
    = [ "Murder"; "Rape"; "Kidnapping & Abduction"; "Robbery"; "Burglary";
        "Theft"; "Riots"; "Dowry Deaths"; "Assault on Women";
        "Cruelty by Husband" ].
Proof.
  intros H. eexists. split; [apply category_data_Ok, H|].
  split; reflexivity.
Qed.

(** Witness for C10: a table with the ten columns and no row. *)
Lemma category_totals_ten_rows_witness :
  exists t,
    category_data {| columns := ten_columns; rows := [] |} murder_2013 = Ok t /\
    List.length (body t) = 10%nat.
Proof.
  destruct (category_totals_ten_rows {| columns := ten_columns; rows := [] |}
              murder_2013 eq_refl) as [t [H1 [H2 _]]].
  exists t. split; assumption.
Defined.

(** ** The loader keeps and normalises the rows *)






(** ** Objects: the tabs build new objects and leave the old ones alone *)

Lemma extends_refl (w : World) : extends w w.
Proof. split; [exists []; symmetry; apply app_nil_r | reflexivity]. Qed.

Lemma extends_trans (w1 w2 w3 : World) :
  extends w1 w2 -> extends w2 w3 -> extends w1 w3.
Proof.
  intros [[e1 H1] C1] [[e2 H2] C2]. split.
  - exists (e1 ++ e2)%list. rewrite H2, H1, app_assoc. reflexivity.
  - congruence.
Qed.

Lemma extends_lookup (w w' : World) (r : ref) (o : object) :
  extends w w' ->
  nth_error (objects w) r = Some o -> nth_error (objects w') r = Some o.
Proof.
  intros [[e H] _] Hr. rewrite H. rewrite nth_error_app1; [exact Hr|].
  apply nth_error_Some. congruence.
Qed.

Lemma nth_error_new (l : list object) (o : object) :
  nth_error (l ++ [o]) (List.length l) = Some o.
Proof.
  rewrite nth_error_app2 by lia. rewrite Nat.sub_diag. reflexivity.
Qed.

Lemma update_nth_new (l : list object) (o o' : object) :
  update_nth (l ++ [o]) (List.length l) o' = l ++ [o'].
Proof.
  induction l as [|x l IH]; simpl; [reflexivity|]. rewrite IH. reflexivity.
Qed.

Lemma tab1_returns (data : ref) (df : DataFrame) (sel : Selection) (w : World) :
  nth_error (objects w) data = Some (OFrame df) ->
  returns_table OStrTable (state_data df sel) w (tab1 data sel w).
Proof.
  intros Hdata. unfold tab1, py_getitem_mask, bindPy at 1 2, frame_at.
  rewrite Hdata. unfold new at 1.
  set (year_rows := getitem_mask df (fun r => YEAR r =? selected_year sel)).
  set (w1 := {| objects := objects w ++ [OFrame year_rows];
                load_data_cache := load_data_cache w |}).
  assert (E1 : extends w w1) by (split; [eexists|]; reflexivity).
  unfold state_data, filtered_data. fold year_rows.
  destruct (negb (String.eqb (selected_state sel) "All")).
  - unfold bindPy at 1 2. simpl objects. rewrite nth_error_new.
    unfold new at 1.
    set (state_rows := getitem_mask year_rows _).
    set (w2 := {| objects := _; load_data_cache := _ |}).
    assert (E2 : extends w1 w2) by (split; [eexists|]; reflexivity).
    unfold bindPy at 1, lift.
    destruct (dict_getitem crime_types (selected_crime sel)) as [column|e];
      [|split; [exact (extends_trans E1 E2) | reflexivity]].
    unfold py_groupby_sum_str, bindPy, frame_at, lift. simpl objects.
    rewrite nth_error_new. cbn [bind].
    destruct (groupby_sum _ _ _ _ state_rows column) as [t|e].
    + split; [|simpl; apply nth_error_new].
      apply (extends_trans E1), (extends_trans E2).
      split; [eexists|]; reflexivity.
    + split; [exact (extends_trans E1 E2) | reflexivity].
  - unfold bindPy at 1 2, ret, lift.
    destruct (dict_getitem crime_types (selected_crime sel)) as [column|e];
      [|split; [exact E1 | reflexivity]].
    unfold py_groupby_sum_str, bindPy, frame_at, lift. simpl objects.
    rewrite nth_error_new. cbn [bind].
    destruct (groupby_sum _ _ _ _ year_rows column) as [t|e].
    + split; [|simpl; apply nth_error_new].
      apply (extends_trans E1). split; [eexists|]; reflexivity.
    + split; [exact E1 | reflexivity].
Qed.

Lemma tab2_returns (data : ref) (df : DataFrame) (sel : Selection) (w : World) :
  nth_error (objects w) data = Some (OFrame df) ->
  returns_table OIntTable (yearly_data df sel) w (tab2 data sel w).
Proof.
  intros Hdata. unfold tab2, yearly_data, bindPy at 1, lift.
  destruct (dict_getitem crime_types (selected_crime sel)) as [column|e];
    [|split; [apply extends_refl | reflexivity]].
  unfold py_groupby_sum_int, bindPy, frame_at, lift. rewrite Hdata. cbn [bind].
  destruct (groupby_sum _ _ _ _ df column) as [t|e].
  - split; [|simpl; apply nth_error_new].
    split; [eexists|]; reflexivity.
  - split; [apply extends_refl | reflexivity].
Qed.

Lemma tab3_returns (data : ref) (df : DataFrame) (sel : Selection) (w : World) :
  nth_error (objects w) data = Some (OFrame df) ->
  returns_table OStrTable (category_data df sel) w (tab3 data w).
Proof.
  intros Hdata.
  unfold tab3, category_data, py_getitem_list, bindPy at 1 2 3, frame_at, lift.
  rewrite Hdata.
  destruct (getitem_list df (dict_values crime_types)) as [counts|e];
    [|split; [apply extends_refl | reflexivity]].
  unfold new at 1. cbn [bind].
  set (w1 := {| objects := objects w ++ [OFrame counts];
                load_data_cache := load_data_cache w |}).
  assert (E1 : extends w w1) by (split; [eexists|]; reflexivity).
  unfold py_sum_reset_index, bindPy at 1 2, frame_at. simpl objects.
  rewrite nth_error_new. unfold new at 1. simpl objects.
  set (t0 := reset_index (frame_sum counts)).
  unfold py_set_columns, bindPy at 1 2 3, str_table_at, lift. simpl objects.
  rewrite nth_error_new. cbn [set_columns bind]. unfold assign at 1.
  simpl objects. rewrite update_nth_new.
  unfold py_setitem_first, bindPy, str_table_at, lift. simpl objects.
  rewrite nth_error_new.
  destruct (setitem_first _ (dict_keys crime_types)) as [t|e].
  - unfold assign, ret. simpl objects. rewrite update_nth_new.
    split; [|simpl; apply nth_error_new].
    apply (extends_trans E1). split; [eexists|]; reflexivity.
  - split; [|reflexivity].
    apply (extends_trans E1). split; [eexists|]; reflexivity.
Qed.

Lemma run_tabs_aggregate (data : ref) (df : DataFrame) (sel : Selection)
    (w w' : World) (r : Result Tables) :
  nth_error (objects w) data = Some (OFrame df) ->
  run_tabs data sel w = (r, w') ->
  r = aggregate df sel /\ extends w w'.
Proof.
  intros Hdata Hrun. unfold run_tabs in Hrun. unfold aggregate.
  pose proof (tab1_returns data sel w Hdata) as [E1 R1].
  unfold bindPy at 1 in Hrun. destruct (tab1 data sel w) as [[state|e] w1];
    simpl in E1, R1; destruct (state_data df sel) as [s|e']; try contradiction;
    [|inversion Hrun; subst; split; [reflexivity | exact E1]].
  unfold bindPy at 1, str_table_at at 1 in Hrun. rewrite R1 in Hrun.
  cbn [bind].
  pose proof (tab2_returns data sel w1 (@extends_lookup _ _ _ _ E1 Hdata)) as [E2 R2].
  unfold bindPy at 1 in Hrun. destruct (tab2 data sel w1) as [[yearly|e] w2];
    simpl in E2, R2; destruct (yearly_data df sel) as [y|e']; try contradiction;
    [|inversion Hrun; subst; split;
      [reflexivity | exact (extends_trans E1 E2)]].
  unfold bindPy at 1, int_table_at at 1 in Hrun. rewrite R2 in Hrun.
  cbn [bind].
  assert (E12 : extends w w2) by exact (extends_trans E1 E2).
  pose proof (tab3_returns data sel w2 (@extends_lookup _ _ _ _ E12 Hdata)) as [E3 R3].
  unfold bindPy at 1 in Hrun. destruct (tab3 data w2) as [[category|e] w3];
    simpl in E3, R3; destruct (category_data df sel) as [c|e']; try contradiction;
    [|inversion Hrun; subst; split;
      [reflexivity | exact (extends_trans E12 E3)]].
  unfold bindPy, str_table_at, ret in Hrun. rewrite R3 in Hrun.
  inversion Hrun; subst.
  split; [reflexivity | exact (extends_trans E12 E3)].
Qed.

Lemma cached_load_data_frame (fs : FileSystem) (w : World) :
  loaded_frame (cached_load_data fs w) = load_source fs w
  /\ load_source fs (snd (cached_load_data fs w)) = load_source fs w
  /\ (exists extra, objects (snd (cached_load_data fs w)) = objects w ++ extra).
Proof.
  unfold cached_load_data, load_source, loaded_frame.
  destruct (load_data_cache w) as [df|] eqn:Hc.
  - simpl. rewrite nth_error_new, Hc. repeat split. eexists. reflexivity.
  - destruct (load_data fs) as [df|e] eqn:Hl; simpl.
    + rewrite nth_error_new. repeat split. eexists. reflexivity.
    + rewrite Hc. repeat split. exists []. symmetry. apply app_nil_r.
Qed.

Lemma dashboard_tables (fs : FileSystem) (sel : Selection) (w : World) :
  fst (dashboard fs sel w)
  = (data <- load_source fs w ;; aggregate data sel)
  /\ load_source fs (snd (dashboard fs sel w)) = load_source fs w.
Proof.
  unfold dashboard, bindPy, cached_load_data, load_source.
  destruct (load_data_cache w) as [df|] eqn:Hc.
  - unfold new.
    set (w1 := {| objects := objects w ++ [OFrame df];
                  load_data_cache := load_data_cache w |}).
    destruct (run_tabs (List.length (objects w)) sel w1) as [r w2] eqn:Hrun.
    apply (@run_tabs_aggregate _ df) in Hrun; [|apply nth_error_new].
    destruct Hrun as [-> [_ Hcache]]. cbn [fst snd bind].
    rewrite Hcache. simpl. rewrite Hc. split; reflexivity.
  - destruct (load_data fs) as [df|e] eqn:Hl.
    + unfold new. simpl objects. simpl load_data_cache at 1 3.
      set (w1 := {| objects := objects w ++ [OFrame df];
                    load_data_cache := Some df |}).
      destruct (run_tabs (List.length (objects w)) sel w1) as [r w2] eqn:Hrun.
      apply (@run_tabs_aggregate _ df) in Hrun; [|apply nth_error_new].
      destruct Hrun as [-> [_ Hcache]]. cbn [fst snd bind].
      rewrite Hcache. split; reflexivity.
    + simpl. rewrite Hc. split; reflexivity.
Qed.

(** C8.  The pipeline is deterministic and the aggregation is pure.  A
    loader call returns the cached frame when there is one and what the
    files give otherwise, and leaves a world in which the next call
    returns the same.  The tables of one run of the script are the
    aggregation of that frame under the selection, so a rerun with the
    same files and selection gives the same tables.  The tabs, run on a
    reference to a frame, return the aggregation of that frame, whatever
    else the world holds, and leave every object that was there,
    the frame included, as it was. *)
Theorem pipeline_deterministic_and_pure :
  (forall (fs : FileSystem) (w : World),
     loaded_frame (cached_load_data fs w) = load_source fs w /\
     loaded_frame (cached_load_data fs (snd (cached_load_data fs w)))
     = loaded_frame (cached_load_data fs w))
  /\ (forall (fs : FileSystem) (sel : Selection) (w : World),
        fst (dashboard fs sel w)
        = (data <- load_source fs w ;; aggregate data sel) /\
        fst (dashboard fs sel (snd (dashboard fs sel w)))
        = fst (dashboard fs sel w))
  /\ (forall (data : ref) (df : DataFrame) (sel : Selection) (w : World),
        nth_error (objects w) data = Some (OFrame df) ->
        fst (run_tabs data sel w) = aggregate df sel /\
        extends w (snd (run_tabs data sel w)) /\
        nth_error (objects (snd (run_tabs data sel w))) data
        = Some (OFrame df)).
Proof.
  split; [|split].
  - intros fs w. destruct (cached_load_data_frame fs w) as [H1 [H2 _]].
    split; [exact H1|].
    destruct (cached_load_data_frame fs (snd (cached_load_data fs w)))
      as [H3 _].
    rewrite H3, H2, H1. reflexivity.
  - intros fs sel w. destruct (dashboard_tables fs sel w) as [H1 H2].
    split; [exact H1|].
    destruct (dashboard_tables fs sel (snd (dashboard fs sel w))) as [H3 _].
    rewrite H3, H2, H1. reflexivity.
  - intros data df sel w Hdata.
    destruct (run_tabs data sel w) as [r w'] eqn:Hrun.
    destruct (@run_tabs_aggregate _ _ _ _ _ _ Hdata Hrun) as [-> E].
    simpl. split; [reflexivity|]. split; [exact E|].
    apply (@extends_lookup _ _ _ _ E Hdata).
Qed.

(** Witness for C8: the tabs run on the Maharashtra table in a world that
    holds nothing else, and the script run twice on the sample files from
    an empty world. *)
Lemma pipeline_deterministic_and_pure_witness :
  fst (run_tabs 0%nat murder_2013
         {| objects := [OFrame maharashtra_table]; load_data_cache := None |})
  = aggregate maharashtra_table murder_2013
  /\ fst (dashboard sample_fs murder_2013
            (snd (dashboard sample_fs murder_2013 empty_world)))
     = fst (dashboard sample_fs murder_2013 empty_world).
Proof.
  split.
  - apply (proj2 (proj2 pipeline_deterministic_and_pure) 0%nat
             maharashtra_table murder_2013
             {| objects := [OFrame maharashtra_table];
                load_data_cache := None |}).
    reflexivity.
  - apply (proj1 (proj2 pipeline_deterministic_and_pure) sample_fs
             murder_2013 empty_world).
Defined.

(** * Further properties of the code *)

(** ** More on [str.strip] *)

Lemma lstrip_splits (s : string) :
  exists pre, s = String.append pre (lstrip s) /\ all_space pre = true.
Proof.
  induction s as [|c s [pre [Hs Hpre]]]; simpl.
  - exists EmptyString. split; reflexivity.
  - destruct (isspace c) eqn:E.
    + exists (String c pre). simpl. rewrite E, Hpre, <- Hs. split; reflexivity.
    + exists EmptyString. split; reflexivity.
Qed.

Lemma rstrip_splits (s : string) :
  exists post, s = String.append (rstrip s) post /\ all_space post = true.
Proof.
  induction s as [|c s [post [Hs Hpost]]]; simpl.
  - exists EmptyString. split; reflexivity.
  - destruct (rstrip s) as [|c' t] eqn:E.
    + simpl in Hs. subst post. destruct (isspace c) eqn:Ec.
      * exists (String c s). simpl. rewrite Ec, Hpost. split; reflexivity.
      * exists s. split; [reflexivity | exact Hpost].
    + exists post. simpl. split; [|exact Hpost].
      f_equal. exact Hs.
Qed.

Lemma lstrip_fixed (s : string) :
  is_space_char (first_char s) = false -> lstrip s = s.
Proof.
  destruct s as [|c s]; simpl; [reflexivity|].
  intros H. rewrite H. reflexivity.
Qed.

Lemma rstrip_fixed (s : string) :
  is_space_char (last_char s) = false -> rstrip s = s.
Proof.
  induction s as [|c s IH]; [reflexivity|].
  destruct s as [|c' s'].
  - simpl. intros H. rewrite H. reflexivity.
  - intros H. change (last_char (String c (String c' s')))
      with (last_char (String c' s')) in H.
    specialize (IH H). cbn [rstrip] in IH |- *.
    cbn [rstrip] in IH. rewrite IH. reflexivity.
Qed.

Lemma strip_of_trimmed (s : string) : trimmed s -> strip s = s.
Proof.
  intros [H1 H2]. unfold strip. rewrite (lstrip_fixed _ H1).
  apply rstrip_fixed, H2.
Qed.

(** X1.  [strip] removes whitespace at the two ends and nothing else: the
    string is a run of whitespace, then the stripped string, then a run of
    whitespace. *)
Theorem strip_removes_only_outer_whitespace (s : string) :
  exists pre post,
    s = String.append pre (String.append (strip s) post) /\
    all_space pre = true /\ all_space post = true.
Proof.
  destruct (lstrip_splits s) as [pre [Hs Hpre]].
  destruct (rstrip_splits (lstrip s)) as [post [Hl Hpost]].
  exists pre, post. unfold strip. rewrite <- Hl. auto.
Qed.

(** X2.  The strings [strip] leaves as they are are exactly the strings
    without leading and trailing whitespace; so stripping twice is
    stripping once. *)
Theorem strip_fixes_exactly_trimmed (s : string) :
  (strip s = s <-> trimmed s) /\ strip (strip s) = strip s.
Proof.
  split; [split|].
  - intros E. rewrite <- E. apply strip_trimmed.
  - apply strip_of_trimmed.
  - apply strip_of_trimmed, strip_trimmed.
Qed.

(** Witness for X2: a district name with inner blanks. *)
Lemma strip_fixes_exactly_trimmed_witness :
  trimmed "North Goa" /\ strip "North Goa" = "North Goa".
Proof.
  assert (H : trimmed "North Goa") by (split; reflexivity).
  split; [exact H|].
  apply (proj2 (proj1 (strip_fixes_exactly_trimmed "North Goa")) H).
Defined.

(** ** More on the loader *)



Lemma has_column_concat (a b : DataFrame) (c : string) :
  has_column (pd_concat a b) c = has_column a c || has_column b c.
Proof.
  unfold has_column, pd_concat. simpl columns. rewrite existsb_app.
  destruct (existsb (String.eqb c) (columns a)) eqn:Ea; [reflexivity|].
  simpl. induction (columns b) as [|x l IH]; [reflexivity|]. simpl.
  destruct (String.eqb_spec c x) as [<-|Hne].
  - fold (has_column a c). unfold has_column at 1. rewrite Ea. simpl.
    rewrite String.eqb_refl. reflexivity.
  - destruct (negb (has_column a x)); simpl.
    + destruct (String.eqb_spec c x); [contradiction | exact IH].
    + exact IH.
Qed.

Lemma load_data_columns (fs : FileSystem) (data a b : DataFrame) :
  load_data fs = Ok data ->
  fs path_2001_2012 = Some a -> fs path_2013 = Some b ->
  columns data = columns (pd_concat a b).
Proof.
  unfold load_data, pd_read_csv. intros H Ha Hb. rewrite Ha, Hb in H.
  cbn [bind] in H. apply bind_Ok in H. destruct H as [years [_ H]].
  inversion H. reflexivity.
Qed.

(** X4.  The loaded table has a crime column exactly when one of the two
    files has it, so the state totals of the loaded table raise
    [KeyError] for the selected column exactly when neither file has
    it. *)
Theorem loaded_columns_are_the_union (fs : FileSystem)
    (data ipc_2001_2012 ipc_2013 : DataFrame) :
  load_data fs = Ok data ->
  fs path_2001_2012 = Some ipc_2001_2012 ->
  fs path_2013 = Some ipc_2013 ->
  (forall c, has_column data c
             = has_column ipc_2001_2012 c || has_column ipc_2013 c)
  /\ (forall sel column,
        dict_getitem crime_types (selected_crime sel) = Ok column ->
        (state_data data sel = Raise (KeyError [column]) <->
         has_column ipc_2001_2012 column = false /\
         has_column ipc_2013 column = false)).
Proof.
  intros Hload Ha Hb.
  assert (Hcol : forall c, has_column data c
                           = has_column ipc_2001_2012 c || has_column ipc_2013 c).
  { intros c. rewrite <- has_column_concat. unfold has_column.
    rewrite (load_data_columns _ Hload Ha Hb). reflexivity. }
  split; [exact Hcol|].
  intros sel column Hd. rewrite <- orb_false_iff, <- Hcol. split.
  - intros Hraise. destruct (has_column data column) eqn:Hc; [|reflexivity].
    rewrite (state_data_Ok _ _ Hd Hc) in Hraise. discriminate.
  - apply state_data_missing. exact Hd.
Qed.

(** Witness for X4: the sample files. *)
Lemma loaded_columns_are_the_union_witness :
  exists data,
    load_data sample_fs = Ok data /\
    has_column data "THEFT" = true.
Proof.
  destruct (load_data sample_fs) as [data|e] eqn:Hload;
    [|vm_compute in Hload; discriminate].
  exists data. split; [reflexivity|].
  rewrite (proj1 (loaded_columns_are_the_union sample_fs Hload
                    (ipc_2001_2012 := sample_2001_2012)
                    (ipc_2013 := sample_2013) eq_refl eq_refl) "THEFT").
  reflexivity.
Defined.

Lemma normalise_trimmed (r : Row) :
  trimmed (STATE_UT r) -> trimmed (DISTRICT r) -> normalise r = r.
Proof.
  intros Hs Hd. destruct r as [s d y c]. unfold normalise. simpl in *.
  rewrite (strip_of_trimmed Hs), (strip_of_trimmed Hd).
  reflexivity.
Qed.

Lemma astype_float64_small (other : DataFrame) (r : Row) :
  Forall (fun cv => Z.abs (snd cv) < 2 ^ 53) (cells r) ->
  astype_float64 other r = r.
Proof.
  intros H. destruct r as [s d y c]. unfold astype_float64. simpl in *.
  f_equal. rewrite <- (map_id c) at 2. apply map_ext_in.
  intros [name v] Hin. rewrite Forall_forall in H. specialize (H _ Hin).
  simpl in *. destruct (has_column other name); [reflexivity|].
  rewrite (@to_float64_small v H). reflexivity.
Qed.

(** X5.  Rows that are already clean pass through the loader with their
    values unchanged: when no state and no district of the two files has
    leading or trailing whitespace and every count is below 2^53 in
    magnitude, so that a column turned into floats keeps its values, the
    loaded rows are the rows of the files as they are. *)
Theorem load_data_leaves_clean_rows (fs : FileSystem)
    (data ipc_2001_2012 ipc_2013 : DataFrame) :
  load_data fs = Ok data ->
  fs path_2001_2012 = Some ipc_2001_2012 ->
  fs path_2013 = Some ipc_2013 ->
  Forall (fun r => trimmed (STATE_UT r) /\ trimmed (DISTRICT r) /\
                   Forall (fun cv => Z.abs (snd cv) < 2 ^ 53) (cells r))
    (rows ipc_2001_2012 ++ rows ipc_2013) ->
  rows data = rows ipc_2001_2012 ++ rows ipc_2013.
Proof.
  intros Hload Ha Hb Hclean. apply load_data_rows in Hload.
  destruct Hload as [a [b [Ha' [Hb' [_ Hrows]]]]].
  rewrite Ha in Ha'. rewrite Hb in Hb'. inversion Ha'; inversion Hb'; subst a b.
  rewrite Hrows. unfold pd_concat. simpl rows.
  apply Forall_app in Hclean. destruct Hclean as [Hca Hcb].
  assert (Hid : forall other l,
            Forall (fun r => trimmed (STATE_UT r) /\ trimmed (DISTRICT r) /\
                             Forall (fun cv => Z.abs (snd cv) < 2 ^ 53) (cells r))
              l ->
            map normalise (map (astype_float64 other) l) = l).
  { intros other l Hl. rewrite map_map. rewrite <- (map_id l) at 2.
    apply map_ext_in. intros r Hr. rewrite Forall_forall in Hl.
    destruct (Hl r Hr) as [Hs [Hd Hc]].
    rewrite (@astype_float64_small other r Hc).
    apply normalise_trimmed; assumption. }
  rewrite map_app, (Hid ipc_2013 _ Hca), (Hid ipc_2001_2012 _ Hcb).
  reflexivity.
Qed.

(** Witness for X5: the Maharashtra table served as both files. *)
Lemma load_data_leaves_clean_rows_witness :
  exists data,
    load_data (fun _ => Some maharashtra_table) = Ok data /\
    rows data = rows maharashtra_table ++ rows maharashtra_table.
Proof.
  destruct (load_data (fun _ => Some maharashtra_table)) as [data|e] eqn:Hload;
    [|vm_compute in Hload; discriminate].
  exists data. split; [reflexivity|].
  apply (load_data_leaves_clean_rows (fun _ => Some maharashtra_table) Hload
           eq_refl eq_refl).
  repeat constructor.
Defined.

(** ** More on the aggregations *)

Lemma dict_getitem_key (d : list (string * string)) (k : string) :
  In k (dict_keys d) -> exists v, dict_getitem d k = Ok v.
Proof.
  induction d as [|[k' v'] d IH]; simpl; [intros []|].
  intros [H | H]; destruct (String.eqb_spec k k') as [E|E]; eauto.
  congruence.
Qed.

Lemma crime_column_present (data : DataFrame) (label column : string) :
  has_crime_columns data = true ->
  dict_getitem crime_types label = Ok column ->
  has_column data column = true.
Proof.
  intros Hall Hd. unfold has_crime_columns in Hall.
  rewrite forallb_forall in Hall. apply Hall.
  apply dict_values_In with (k := label), dict_getitem_In, Hd.
Qed.

Lemma getitem_list_Ok_inv (data sub : DataFrame) (cs : list string) :
  getitem_list data cs = Ok sub -> forallb (has_column data) cs = true.
Proof.
  unfold getitem_list.
  destruct (filter (fun c => negb (has_column data c)) cs) as [|m ms] eqn:E;
    [|discriminate].
  intros _. apply forallb_forall. intros c Hc.
  destruct (has_column data c) eqn:Hhas; [reflexivity|].
  assert (Hin : In c (filter (fun c => negb (has_column data c)) cs)).
  { apply filter_In. rewrite Hhas. auto. }
  rewrite E in Hin. destruct Hin.
Qed.

(** X6.  The aggregation as a whole returns its three tables exactly when
    the selected crime type is one of the labels of the dictionary and the
    table has every column the dictionary names; one missing column makes
    it raise, also a column other than the selected one. *)
Theorem aggregate_succeeds_iff (data : DataFrame) (sel : Selection) :
  (exists tables, aggregate data sel = Ok tables) <->
  In (selected_crime sel) crime_options /\ has_crime_columns data = true.
Proof.
  split.
  - intros [tables H]. unfold aggregate in H.
    apply bind_Ok in H. destruct H as [s [Hs H]].
    apply bind_Ok in H. destruct H as [y [_ H]].
    apply bind_Ok in H. destruct H as [c [Hc _]].
    split.
    + unfold state_data in Hs. apply bind_Ok in Hs.
      destruct Hs as [column [Hd _]].
      apply dict_getitem_In in Hd. apply (in_map fst) in Hd. exact Hd.
    + unfold category_data in Hc. apply bind_Ok in Hc.
      destruct Hc as [sub [Hsub _]].
      apply getitem_list_Ok_inv in Hsub. exact Hsub.
  - intros [Hkey Hall]. destruct (dict_getitem_key _ _ Hkey) as [column Hd].
    pose proof (@crime_column_present _ _ _ Hall Hd) as Hc.
    unfold aggregate.
    rewrite (state_data_Ok _ _ Hd Hc), (yearly_data_Ok _ _ Hd Hc),
      (category_data_Ok _ sel Hall).
    eexists. reflexivity.
Qed.

(** Witness for X6: murders on the Maharashtra table. *)
Lemma aggregate_succeeds_iff_witness :
  exists tables, aggregate maharashtra_table murder_2013 = Ok tables.
Proof.
  apply (proj2 (aggregate_succeeds_iff maharashtra_table murder_2013)).
  split; [left; reflexivity | reflexivity].
Defined.

(** X7.  The year totals add up to the sum of the selected column over the
    whole table, and the category table carries that same number in the
    row of the selected crime type. *)
Theorem year_totals_match_category_row (data : DataFrame) (sel : Selection)
    (column : string) :
  dict_getitem crime_types (selected_crime sel) = Ok column ->
  has_crime_columns data = true ->
  exists yearly category,
    yearly_data data sel = Ok yearly /\
    category_data data sel = Ok category /\
    sum (map snd (body yearly)) = sum (map (cell column) (rows data)) /\
    In (selected_crime sel, sum (map snd (body yearly))) (body category).
Proof.
  intros Hd Hall. pose proof (@crime_column_present _ _ _ Hall Hd) as Hc.
  eexists. eexists.
  split; [apply yearly_data_Ok; eassumption|].
  split; [apply category_data_Ok; exact Hall|].
  simpl body.
  assert (Hsum : sum (map snd
                   (map (fun y => (y, sum (map (cell column)
                                             (group Z.eqb YEAR y (rows data)))))
                        (group_keys Z.eqb Z.leb YEAR (rows data))))
                 = sum (map (cell column) (rows data))).
  { apply (@groupby_sum_total _ _ Z.leb Z.eqb_eq YEAR data column). }
  split; [exact Hsum|]. rewrite Hsum.
  apply dict_getitem_In in Hd.
  apply (in_map (fun entry =>
                   (fst entry, sum (map (cell (snd entry)) (rows data))))) in Hd.
  exact Hd.
Qed.

(** Witness for X7: thefts on the Maharashtra table. *)
Lemma year_totals_match_category_row_witness :
  exists yearly category,
    yearly_data maharashtra_table theft_2001_kerala = Ok yearly /\
    category_data maharashtra_table theft_2001_kerala = Ok category /\
    In ("Theft", sum (map snd (body yearly))) (body category).
Proof.
  destruct (year_totals_match_category_row maharashtra_table theft_2001_kerala
              (column := "THEFT") eq_refl eq_refl)
    as [yearly [category [H1 [H2 [_ H3]]]]].
  exists yearly, category. repeat split; assumption.
Defined.

Lemma state_data_inv (data : DataFrame) (sel : Selection) (t : Table string) :
  state_data data sel = Ok t ->
  exists column,
    dict_getitem crime_types (selected_crime sel) = Ok column /\
    has_column data column = true.
Proof.
  intros Ht.
  destruct (dict_getitem crime_types (selected_crime sel)) as [column|e] eqn:Hd;
    [|unfold state_data in Ht; rewrite Hd in Ht; discriminate].
  destruct (has_column data column) eqn:Hc;
    [|rewrite (state_data_missing _ _ Hd Hc) in Ht; discriminate].
  exists column. split; [reflexivity | exact Hc].
Qed.

Lemma yearly_data_inv (data : DataFrame) (sel : Selection) (t : Table Z) :
  yearly_data data sel = Ok t ->
  exists column,
    dict_getitem crime_types (selected_crime sel) = Ok column /\
    has_column data column = true.
Proof.
  intros Ht. unfold yearly_data, groupby_sum in Ht.
  destruct (dict_getitem crime_types (selected_crime sel)) as [column|e] eqn:Hd;
    [|discriminate].
  cbn [bind] in Ht.
  destruct (has_column data column) eqn:Hc; [|discriminate].
  exists column. split; [reflexivity | exact Hc].
Qed.

Lemma kept_all (sel : Selection) (r : Row) :
  selected_state sel = "All" -> kept sel r = (YEAR r =? selected_year sel).
Proof.
  intros H. unfold kept. rewrite H. simpl. apply andb_true_r.
Qed.

Lemma kept_state (sel : Selection) (r : Row) :
  selected_state sel <> "All" ->
  kept sel r
  = (YEAR r =? selected_year sel) && String.eqb (STATE_UT r) (selected_state sel).
Proof.
  intros H. unfold kept.
  destruct (String.eqb_spec (selected_state sel) "All"); [contradiction|].
  reflexivity.
Qed.

Section GroupOfOneKey.
Variable K : Type.
Variable eqb : K -> K -> bool.
Variable leb : K -> K -> bool.
Hypothesis eqb_eq : forall a b : K, eqb a b = true <-> a = b.
Variable key : Row -> K.

Lemma group_keys_empty (rs : list Row) :
  (forall r, ~ In r rs) -> group_keys eqb leb key rs = [].
Proof.
  intros H. destruct (group_keys eqb leb key rs) as [|k ks] eqn:E;
    [reflexivity|].
  assert (Hk : In k (group_keys eqb leb key rs)) by (rewrite E; left; reflexivity).
  apply (group_keys_In eqb leb eqb_eq key) in Hk. destruct Hk as [r [Hr _]].
  destruct (H r Hr).
Qed.

Lemma NoDup_all_equal_cases (a : K) (l : list K) :
  NoDup l -> (forall x, In x l -> x = a) -> l = [] \/ l = [a].
Proof.
  intros Hnd Hall. destruct l as [|x [|y l]]; [left; reflexivity| |].
  - right. rewrite (Hall x); [reflexivity | left; reflexivity].
  - exfalso. inversion Hnd as [|? ? Hx _]; subst. apply Hx.
    rewrite (Hall x), (Hall y); simpl; auto.
Qed.

Lemma filter_body_key (F : K -> Z) (s : K) (ks : list K) :
  NoDup ks ->
  filter (fun kv => eqb (fst kv) s) (map (fun k => (k, F k)) ks)
  = if existsb (eqb s) ks then [(s, F s)] else [].
Proof.
  induction 1 as [|k ks Hk Hnd IH]; [reflexivity|].
  cbn [map filter existsb fst]. rewrite IH.
  destruct (eqb k s) eqn:E.
  - apply eqb_eq in E. subst k. rewrite (eqb_refl eqb eqb_eq). simpl.
    destruct (existsb (eqb s) ks) eqn:Ex; [|reflexivity].
    apply existsb_exists in Ex. destruct Ex as [x [Hx Exs]].
    apply eqb_eq in Exs. subst x. contradiction.
  - destruct (eqb s k) eqn:E'; [|reflexivity].
    apply eqb_eq in E'. subst k. rewrite (eqb_refl eqb eqb_eq) in E. discriminate.
Qed.

Lemma group_idempotent (s : K) (rs : list Row) :
  group eqb key s (group eqb key s rs) = group eqb key s rs.
Proof.
  unfold group. rewrite filter_filter. apply filter_ext.
  intros r. apply andb_diag.
Qed.

(** Grouping the rows of one key gives the row of that key in the grouping
    of all rows, or nothing when no row has the key. *)
Lemma group_of_one_key (val : Row -> Z) (s : K) (rs : list Row) :
  map (fun k => (k, sum (map val (group eqb key k (group eqb key s rs)))))
      (group_keys eqb leb key (group eqb key s rs))
  = filter (fun kv => eqb (fst kv) s)
      (map (fun k => (k, sum (map val (group eqb key k rs))))
           (group_keys eqb leb key rs)).
Proof.
  rewrite filter_body_key by (apply group_keys_NoDup, eqb_eq).
  assert (Hone : forall k, In k (group_keys eqb leb key (group eqb key s rs)) ->
                           k = s).
  { intros k Hk. apply (group_keys_In eqb leb eqb_eq key) in Hk.
    destruct Hk as [r [Hr <-]]. apply filter_In in Hr.
    apply eqb_eq, Hr. }
  destruct (existsb (eqb s) (group_keys eqb leb key rs)) eqn:Ex.
  - apply existsb_exists in Ex. destruct Ex as [k [Hk Ek]].
    apply eqb_eq in Ek. subst k.
    apply (group_keys_In eqb leb eqb_eq key) in Hk. destruct Hk as [r [Hr Hs]].
    assert (Hin : In s (group_keys eqb leb key (group eqb key s rs))).
    { apply (group_keys_In eqb leb eqb_eq key). exists r. split; [|exact Hs].
      apply filter_In. split; [exact Hr | apply eqb_eq, Hs]. }
    destruct (NoDup_all_equal_cases
                (group_keys_NoDup eqb leb eqb_eq key (group eqb key s rs)) Hone)
      as [E | E]; rewrite E in *; [destruct Hin|].
    simpl. rewrite group_idempotent. reflexivity.
  - rewrite group_keys_empty; [reflexivity|].
    intros r Hr. apply filter_In in Hr. destruct Hr as [Hr Hs].
    assert (Hin : In s (group_keys eqb leb key rs)).
    { apply (group_keys_In eqb leb eqb_eq key). exists r. split; [exact Hr|].
      apply eqb_eq, Hs. }
    assert (Ht : existsb (eqb s) (group_keys eqb leb key rs) = true).
    { apply existsb_exists. exists s. split; [exact Hin|].
      apply (eqb_refl eqb eqb_eq). }
    congruence.
Qed.
End GroupOfOneKey.

Lemma group_keys_nonempty (K : Type) (eqb leb : K -> K -> bool)
    (key : Row -> K) (rs : list Row) :
  (forall a b : K, eqb a b = true <-> a = b) ->
  (group_keys eqb leb key rs = [] <-> rs = []).
Proof.
  intros eqb_eq. split.
  - intros E. destruct rs as [|r rs]; [reflexivity|]. exfalso.
    assert (H : In (key r) (group_keys eqb leb key (r :: rs))).
    { apply (group_keys_In eqb leb eqb_eq key). exists r.
      split; [left|]; reflexivity. }
    rewrite E in H. destruct H.
  - intros ->. reflexivity.
Qed.

(** X8.  With [All] selected, the state totals of a year add up to the row
    of that year in the year totals, and the state totals are empty exactly
    when the year totals have no row for the year. *)
Theorem state_totals_add_up_to_year_row (data : DataFrame) (sel : Selection)
    (column : string) :
  selected_state sel = "All" ->
  dict_getitem crime_types (selected_crime sel) = Ok column ->
  has_column data column = true ->
  exists states yearly,
    state_data data sel = Ok states /\
    yearly_data data sel = Ok yearly /\
    (forall v, In (selected_year sel, v) (body yearly) ->
               v = sum (map snd (body states))) /\
    (body states = [] <-> ~ In (selected_year sel) (map fst (body yearly))).
Proof.
  intros Hall Hd Hc. eexists. eexists.
  split; [apply state_data_Ok; eassumption|].
  split; [apply yearly_data_Ok; eassumption|]. simpl body.
  assert (Hrows : filter (kept sel) (rows data)
                  = group Z.eqb YEAR (selected_year sel) (rows data)).
  { apply filter_ext. intros r. apply kept_all, Hall. }
  split.
  - intros v Hin. apply in_body_keys in Hin. destruct Hin as [_ ->].
    rewrite <- Hrows. symmetry.
    apply (@groupby_sum_total _ _ String.leb String.eqb_eq STATE_UT
             (getitem_mask data (kept sel)) column).
  - rewrite map_fst_body, (group_keys_In Z.eqb Z.leb Z.eqb_eq YEAR).
    split.
    + intros E [r [Hr Hy]]. apply map_eq_nil in E.
      apply (group_keys_nonempty String.eqb String.leb STATE_UT) in E;
        [|exact String.eqb_eq].
      assert (Hin : In r (filter (kept sel) (rows data))).
      { rewrite Hrows. apply filter_In. split; [exact Hr|].
        apply Z.eqb_eq, Hy. }
      rewrite E in Hin. destruct Hin.
    + intros Hno.
      replace (filter (kept sel) (rows data)) with (@nil Row); [reflexivity|].
      symmetry. rewrite Hrows.
      destruct (group Z.eqb YEAR (selected_year sel) (rows data)) as [|r rs] eqn:E;
        [reflexivity|]. exfalso. apply Hno. exists r.
      assert (Hin : In r (group Z.eqb YEAR (selected_year sel) (rows data)))
        by (rewrite E; left; reflexivity).
      apply filter_In in Hin. destruct Hin as [Hr Hy].
      split; [exact Hr | apply Z.eqb_eq, Hy].
Qed.

(** Witness for X8: murders of 2013 in all states of the Maharashtra
    table. *)
Lemma state_totals_add_up_to_year_row_witness :
  exists states yearly,
    state_data maharashtra_table murder_2013 = Ok states /\
    yearly_data maharashtra_table murder_2013 = Ok yearly /\
    In (2013, sum (map snd (body states))) (body yearly).
Proof.
  destruct (state_totals_add_up_to_year_row maharashtra_table murder_2013
              (column := "MURDER") eq_refl eq_refl eq_refl)
    as [states [yearly [H1 [H2 [H3 _]]]]].
  exists states, yearly. split; [exact H1|]. split; [exact H2|].
  rewrite <- (H3 15).
  - vm_compute in H2. inversion H2. left. reflexivity.
  - vm_compute in H2. inversion H2. left. reflexivity.
Defined.

(** X9.  Selecting one state shows that state's row of the table for all
    states: the state totals for a state other than [All] are the rows of
    the state totals for [All], same year and crime type, whose state is
    the selected one. *)
Theorem state_totals_of_one_state (data : DataFrame) (sel : Selection)
    (s column : string) :
  s <> "All" ->
  dict_getitem crime_types (selected_crime sel) = Ok column ->
  has_column data column = true ->
  exists everywhere one,
    state_data data (choose_state sel "All") = Ok everywhere /\
    state_data data (choose_state sel s) = Ok one /\
    body one = filter (fun kv => String.eqb (fst kv) s) (body everywhere).
Proof.
  intros Hs Hd Hc. eexists. eexists.
  split; [apply (state_data_Ok data (choose_state sel "All") Hd Hc)|].
  split; [apply (state_data_Ok data (choose_state sel s) Hd Hc)|].
  simpl body.
  assert (Hrows : filter (kept (choose_state sel s)) (rows data)
                  = group String.eqb STATE_UT s
                      (filter (kept (choose_state sel "All")) (rows data))).
  { unfold group. rewrite filter_filter. apply filter_ext. intros r.
    rewrite kept_state by exact Hs. rewrite kept_all by reflexivity.
    reflexivity. }
  rewrite Hrows.
  apply (@group_of_one_key _ String.eqb String.leb String.eqb_eq STATE_UT
           (cell column)).
Qed.

(** Witness for X9: Assam in the 2013 sample. *)
Lemma state_totals_of_one_state_witness :
  exists everywhere one,
    state_data sample_2013 (choose_state murder_2013 "All") = Ok everywhere /\
    state_data sample_2013 (choose_state murder_2013 "Assam") = Ok one /\
    body one = filter (fun kv => String.eqb (fst kv) "Assam") (body everywhere).
Proof.
  apply (state_totals_of_one_state sample_2013 murder_2013
           (s := "Assam") (column := "MURDER"));
    [discriminate | reflexivity | reflexivity].
Defined.

Lemma Sorted_strict (A : Type) (R R' : A -> A -> Prop) (l : list A) :
  (forall a b, R a b -> a <> b -> R' a b) ->
  Sorted R l -> NoDup l -> Sorted R' l.
Proof.
  intros Hstrict. induction 1 as [|x l Hl IH Hx]; intros Hnd; constructor.
  - apply IH. inversion Hnd; assumption.
  - inversion Hnd as [|? ? Hnotin _]; subst.
    destruct Hx as [|y l Hxy]; constructor.
    apply Hstrict; [exact Hxy|]. intros ->. apply Hnotin. left. reflexivity.
Qed.

Lemma string_leb_strict (a b : string) :
  String.leb a b = true -> a <> b -> String.ltb a b = true.
Proof.
  unfold String.leb, String.ltb. intros Hle Hne.
  destruct (String.compare a b) eqn:E; [|reflexivity|discriminate].
  apply String.compare_eq_iff in E. contradiction.
Qed.

(** X10.  The rows of the state totals come in strictly ascending order of
    the state name, character code by character code, and the rows of the
    year totals in strictly ascending order of the year. *)
Theorem totals_are_sorted_by_key (data : DataFrame) (sel : Selection) :
  (forall t, state_data data sel = Ok t ->
             Sorted (fun a b => String.ltb a b = true) (map fst (body t)))
  /\ (forall t, yearly_data data sel = Ok t ->
                Sorted Z.lt (map fst (body t))).
Proof.
  split; intros t Ht.
  - destruct (state_data_inv _ _ Ht) as [column [Hd Hc]].
    rewrite (state_data_Ok _ _ Hd Hc) in Ht. inversion Ht; subst t; clear Ht.
    simpl body. rewrite map_fst_body.
    apply Sorted_strict with (R := fun a b => String.leb a b = true).
    + exact string_leb_strict.
    + apply sort_keys_Sorted. exact String.leb_total.
    + apply group_keys_NoDup. exact String.eqb_eq.
  - destruct (yearly_data_inv _ _ Ht) as [column [Hd Hc]].
    rewrite (yearly_data_Ok _ _ Hd Hc) in Ht. inversion Ht; subst t; clear Ht.
    simpl body. rewrite map_fst_body.
    apply Sorted_strict with (R := fun a b => Z.leb a b = true).
    + intros a b Hle Hne. apply Z.leb_le in Hle. lia.
    + apply sort_keys_Sorted. intros a b. lia.
    + apply group_keys_NoDup. exact Z.eqb_eq.
Qed.

(** Witness for X10: the year totals of the 2001-2012 sample, whose rows
    come with 2001 before 2012. *)
Lemma totals_are_sorted_by_key_witness :
  Sorted Z.lt [2001; 2012].
Proof.
  apply (proj2 (totals_are_sorted_by_key sample_2001_2012 murder_2013)
           {| header := ("YEAR", "MURDER"); body := [(2001, 7); (2012, 3)] |}).
  reflexivity.
Defined.

Lemma total_filter_bounds (f : Row -> Z) (p : Row -> bool) (rs : list Row) :
  (forall r, In r rs -> 0 <= f r) ->
  0 <= total (map f (filter p rs)) <= total (map f rs).
Proof.
  unfold total. induction rs as [|r rs IH]; intros Hpos; simpl; [lia|].
  assert (Hr : 0 <= f r) by (apply Hpos; left; reflexivity).
  assert (Hrs : forall r', In r' rs -> 0 <= f r')
    by (intros r' Hr'; apply Hpos; right; exact Hr').
  specialize (IH Hrs). destruct (p r); simpl; lia.
Qed.

Lemma sum_filter_exact (f : Row -> Z) (p : Row -> bool) (rs : list Row) :
  (forall r, In r rs -> 0 <= f r) ->
  total (map f rs) < 2 ^ 63 ->
  sum (map f (filter p rs)) = total (map f (filter p rs)).
Proof.
  intros Hpos Hsmall. rewrite sum_wraps_total. apply wrap64_small.
  pose proof (total_filter_bounds f p rs Hpos). lia.
Qed.

(** X11.  Where no count of the selected column is negative and the
    counts of the column add up to less than 2^63 over the whole table,
    so that no 64-bit sum wraps around, no total is negative: a state's
    total is at most the total of the selected year, and the total of a
    year is at most the sum of the column over the whole table. *)
Theorem totals_are_nested (data : DataFrame) (sel : Selection)
    (column : string) (states : Table string) (yearly : Table Z) :
  dict_getitem crime_types (selected_crime sel) = Ok column ->
  (forall r, In r (rows data) -> 0 <= cell column r) ->
  total (map (cell column) (rows data)) < 2 ^ 63 ->
  state_data data sel = Ok states ->
  yearly_data data sel = Ok yearly ->
  (forall y v, In (y, v) (body yearly) ->
               0 <= v <= sum (map (cell column) (rows data)))
  /\ (forall s v, In (s, v) (body states) ->
        0 <= v /\
        exists total, In (selected_year sel, total) (body yearly) /\ v <= total).
Proof.
  intros Hd Hpos Hsmall Hs Hy.
  destruct (state_data_inv _ _ Hs) as [column' [Hd' Hc]].
  rewrite Hd in Hd'. inversion Hd'; subst column'; clear Hd'.
  rewrite (state_data_Ok _ _ Hd Hc) in Hs. inversion Hs; subst states; clear Hs.
  rewrite (yearly_data_Ok _ _ Hd Hc) in Hy. inversion Hy; subst yearly; clear Hy.
  simpl body.
  assert (Hall : sum (map (cell column) (rows data))
                 = total (map (cell column) (rows data))).
  { rewrite sum_wraps_total. apply wrap64_small.
    pose proof (total_filter_bounds (cell column) (fun _ => true) _ Hpos). lia. }
  split.
  - intros y v Hin. apply in_body_keys in Hin. destruct Hin as [_ ->].
    unfold group. rewrite (sum_filter_exact _ _ _ Hpos Hsmall), Hall.
    apply total_filter_bounds, Hpos.
  - intros s v Hin. apply in_body_keys in Hin. destruct Hin as [Hkey ->].
    assert (Hyear : filter (fun r => Z.eqb (YEAR r) (selected_year sel)
                                     && (kept sel r && String.eqb (STATE_UT r) s))
                      (rows data)
                    = group String.eqb STATE_UT s (filter (kept sel) (rows data))).
    { unfold group. rewrite filter_filter. apply filter_ext. intros r.
      unfold kept. destruct (YEAR r =? selected_year sel); reflexivity. }
    rewrite <- Hyear. rewrite (sum_filter_exact _ _ _ Hpos Hsmall).
    rewrite <- filter_filter.
    assert (Hpos' : forall r,
              In r (filter (fun r => YEAR r =? selected_year sel) (rows data)) ->
              0 <= cell column r).
    { intros r Hr. apply filter_In in Hr. apply Hpos, Hr. }
    pose proof (total_filter_bounds (cell column)
                  (fun r => kept sel r && String.eqb (STATE_UT r) s) _ Hpos')
      as [H0 Hle].
    split; [exact H0|]. eexists. split.
    + apply (in_map (fun y => (y, sum (map (cell column)
                                        (group Z.eqb YEAR y (rows data)))))).
      apply (group_keys_In String.eqb String.leb String.eqb_eq STATE_UT) in Hkey.
      destruct Hkey as [r [Hr _]]. apply filter_In in Hr. destruct Hr as [Hr Hk].
      apply (group_keys_In Z.eqb Z.leb Z.eqb_eq YEAR). exists r.
      split; [exact Hr|]. unfold kept in Hk. apply andb_true_iff in Hk.
      apply Z.eqb_eq, Hk.
    + unfold group. rewrite (sum_filter_exact _ _ _ Hpos Hsmall). exact Hle.
Qed.

(** Witness for X11: murders of 2013 in the Maharashtra table. *)
Lemma totals_are_nested_witness :
  total (map (cell "MURDER") (rows maharashtra_table)) < 2 ^ 63 /\
  exists total, In (2013, total) [(2013, 15)] /\ 15 <= total.
Proof.
  split; [reflexivity|].
  apply (proj2 (totals_are_nested maharashtra_table murder_2013
                  (column := "MURDER")
                  (states := {| header := ("STATE/UT", "MURDER");
                                body := [("Maharashtra", 15)] |})
                  (yearly := {| header := ("YEAR", "MURDER");
                                body := [(2013, 15)] |})
                  eq_refl
                  ltac:(intros r [<- | [<- | []]]; vm_compute; discriminate)
                  eq_refl eq_refl eq_refl) "Maharashtra" 15).
  left. reflexivity.
Defined.

(** ** The sidebar *)

(** X12.  The state box offers [All] and then every state of the table,
    each once, in strictly ascending order; every state that appears in
    the state totals, for any selection, is one of these options. *)
Theorem state_options_list_the_states (data : DataFrame) :
  exists states,
    state_options data = "All" :: states /\
    NoDup states /\
    Sorted (fun a b => String.ltb a b = true) states /\
    (forall s, In s states <-> exists r, In r (rows data) /\ STATE_UT r = s) /\
    (forall sel t s v,
       state_data data sel = Ok t -> In (s, v) (body t) -> In s states).
Proof.
  exists (group_keys String.eqb String.leb STATE_UT (rows data)).
  assert (Hnd : NoDup (group_keys String.eqb String.leb STATE_UT (rows data)))
    by (apply group_keys_NoDup; exact String.eqb_eq).
  split; [reflexivity|]. split; [exact Hnd|]. split; [|split].
  - apply Sorted_strict with (R := fun a b => String.leb a b = true).
    + exact string_leb_strict.
    + apply sort_keys_Sorted. exact String.leb_total.
    + exact Hnd.
  - apply (group_keys_In String.eqb String.leb String.eqb_eq STATE_UT).
  - intros sel t s v Ht Hin.
    destruct (state_data_inv _ _ Ht) as [column [Hd Hc]].
    rewrite (state_data_Ok _ _ Hd Hc) in Ht. inversion Ht; subst t; clear Ht.
    simpl body in Hin. apply in_body_keys in Hin. destruct Hin as [Hkey _].
    apply (group_keys_In String.eqb String.leb String.eqb_eq STATE_UT) in Hkey.
    destruct Hkey as [r [Hr Hs]]. apply filter_In in Hr.
    apply (group_keys_In String.eqb String.leb String.eqb_eq STATE_UT).
    exists r. tauto.
Qed.

(** Witness for X12: the 2013 sample, with Assam and Kerala. *)
Lemma state_options_list_the_states_witness :
  exists states,
    state_options sample_2013 = "All" :: states /\
    In "Assam" states.
Proof.
  destruct (state_options_list_the_states sample_2013)
    as [states [H1 [_ [_ [H2 _]]]]].
  exists states. split; [exact H1|].
  apply H2. eexists. split; [right; left; reflexivity | reflexivity].
Defined.

Lemma series_min_spec (l : list Z) :
  match series_min l with
  | None => l = []
  | Some m => In m l /\ forall x, In x l -> m <= x
  end.
Proof.
  induction l as [|x l IH]; [reflexivity|]. simpl.
  destruct (series_min l) as [m|].
  - destruct IH as [Hin Hle]. split.
    + destruct (Z.min_spec x m) as [[_ ->] | [_ ->]]; auto.
    + intros y [<- | Hy]; [lia|]. specialize (Hle y Hy). lia.
  - subst l. split; [left; reflexivity|]. intros y [<- | []]. lia.
Qed.

Lemma series_max_spec (l : list Z) :
  match series_max l with
  | None => l = []
  | Some m => In m l /\ forall x, In x l -> x <= m
  end.
Proof.
  induction l as [|x l IH]; [reflexivity|]. simpl.
  destruct (series_max l) as [m|].
  - destruct IH as [Hin Hle]. split.
    + destruct (Z.max_spec x m) as [[_ ->] | [_ ->]]; auto.
    + intros y [<- | Hy]; [lia|]. specialize (Hle y Hy). lia.
  - subst l. split; [left; reflexivity|]. intros y [<- | []]. lia.
Qed.

Lemma year_slider_Ok (data : DataFrame) (sl : Slider) :
  year_slider data = Ok sl ->
  series_min (map YEAR (rows data)) = Some (min_value sl) /\
  series_max (map YEAR (rows data)) = Some (max_value sl) /\
  value sl = max_value sl.
Proof.
  unfold year_slider, st_slider.
  destruct (series_min (map YEAR (rows data))) as [lo|]; [|discriminate].
  destruct (series_max (map YEAR (rows data))) as [hi|]; [|discriminate].
  simpl. destruct (lo <? hi); [|discriminate].
  intros H. inversion H. simpl. auto.
Qed.


(** X13.  The year slider cannot be built for a table without rows: the
    conversion of the missing minimum raises [ValueError].  Nor can it be
    built for a table whose rows all carry the same year: Streamlit
    refuses a slider whose minimum equals its maximum.  For a table with
    two different years it runs from the earliest to the latest year of
    the table, both of which some row carries, every row lies between
    them, and it starts at the latest year. *)
Theorem year_slider_spans_the_years (data : DataFrame) :
  (rows data = [] ->
   year_slider data = Raise (ValueError "cannot convert float NaN to integer"))
  /\ (forall r0,
        In r0 (rows data) ->
        (forall r, In r (rows data) -> YEAR r = YEAR r0) ->
        year_slider data
        = Raise (StreamlitInvalidMinMaxError (YEAR r0) (YEAR r0)))
  /\ (forall r1 r2,
        In r1 (rows data) -> In r2 (rows data) -> YEAR r1 <> YEAR r2 ->
        exists sl,
          year_slider data = Ok sl /\
          value sl = max_value sl /\
          min_value sl < max_value sl /\
          (forall r, In r (rows data) ->
                     min_value sl <= YEAR r <= max_value sl) /\
          (exists r, In r (rows data) /\ YEAR r = min_value sl) /\
          (exists r, In r (rows data) /\ YEAR r = max_value sl)).
Proof.
  split; [|split].
  - intros E. unfold year_slider. rewrite E. reflexivity.
  - intros r0 Hr0 Hsame. unfold year_slider, st_slider.
    pose proof (series_min_spec (map YEAR (rows data))) as Hmin.
    pose proof (series_max_spec (map YEAR (rows data))) as Hmax.
    destruct (series_min (map YEAR (rows data))) as [lo|];
      [|apply map_eq_nil in Hmin; rewrite Hmin in Hr0; destruct Hr0].
    destruct (series_max (map YEAR (rows data))) as [hi|];
      [|apply map_eq_nil in Hmax; rewrite Hmax in Hr0; destruct Hr0].
    destruct Hmin as [Hlo _]. destruct Hmax as [Hhi _].
    apply in_map_iff in Hlo. destruct Hlo as [rlo [<- Rlo]].
    apply in_map_iff in Hhi. destruct Hhi as [rhi [<- Rhi]].
    rewrite (Hsame _ Rlo), (Hsame _ Rhi). simpl.
    rewrite Z.ltb_irrefl. reflexivity.
  - intros r1 r2 Hr1 Hr2 Hne. unfold year_slider, st_slider.
    pose proof (series_min_spec (map YEAR (rows data))) as Hmin.
    pose proof (series_max_spec (map YEAR (rows data))) as Hmax.
    destruct (series_min (map YEAR (rows data))) as [lo|];
      [|apply map_eq_nil in Hmin; rewrite Hmin in Hr1; destruct Hr1].
    destruct (series_max (map YEAR (rows data))) as [hi|];
      [|apply map_eq_nil in Hmax; rewrite Hmax in Hr1; destruct Hr1].
    destruct Hmin as [Hlo Hle]. destruct Hmax as [Hhi Hge].
    assert (Hlt : lo < hi).
    { pose proof (Hle _ (in_map YEAR _ _ Hr1)).
      pose proof (Hle _ (in_map YEAR _ _ Hr2)).
      pose proof (Hge _ (in_map YEAR _ _ Hr1)).
      pose proof (Hge _ (in_map YEAR _ _ Hr2)). lia. }
    simpl. apply Z.ltb_lt in Hlt. rewrite Hlt.
    eexists. split; [reflexivity|]. simpl. split; [reflexivity|].
    split; [apply Z.ltb_lt, Hlt|]. split; [|split].
    + intros r Hr. split; [apply Hle | apply Hge]; apply in_map, Hr.
    + apply in_map_iff in Hlo. destruct Hlo as [r [Hy Hr]]. exists r. auto.
    + apply in_map_iff in Hhi. destruct Hhi as [r [Hy Hr]]. exists r. auto.
Qed.

(** Witness for X13: the 2001-2012 sample, with two years, and the
    Maharashtra table, with one. *)
Lemma year_slider_spans_the_years_witness :
  year_slider maharashtra_table = Raise (StreamlitInvalidMinMaxError 2013 2013)
  /\ exists sl, year_slider sample_2001_2012 = Ok sl
                /\ min_value sl < max_value sl.
Proof.
  split.
  - apply (proj1 (proj2 (year_slider_spans_the_years maharashtra_table))
             (sample_row "Maharashtra" "Pune" 2013 10)).
    + left. reflexivity.
    + intros r [<- | [<- | []]]; reflexivity.
  - destruct (proj2 (proj2 (year_slider_spans_the_years sample_2001_2012))
                (sample_row " Kerala" "Kollam " 2001 7)
                (sample_row "Assam" "Dhubri" 2012 3))
      as [sl [H1 [_ [H2 _]]]].
    + left. reflexivity.
    + right. left. reflexivity.
    + discriminate.
    + exists sl. split; assumption.
Defined.

(** X14.  The year the slider starts at has data: with that year and
    [All] selected the state totals have at least one row, and the year
    totals have a row for each end of the slider and no row outside
    it. *)
Theorem slider_years_have_totals (data : DataFrame) (sel : Selection)
    (sl : Slider) (column : string) :
  year_slider data = Ok sl ->
  dict_getitem crime_types (selected_crime sel) = Ok column ->
  has_column data column = true ->
  (exists states,
     state_data data (choose_state (choose_year sel (value sl)) "All")
     = Ok states /\ body states <> [])
  /\ (exists yearly,
        yearly_data data sel = Ok yearly /\
        In (min_value sl) (map fst (body yearly)) /\
        In (max_value sl) (map fst (body yearly)) /\
        (forall y, In y (map fst (body yearly)) ->
                   min_value sl <= y <= max_value sl)).
Proof.
  intros Hsl Hd Hc. apply year_slider_Ok in Hsl.
  destruct Hsl as [Hmin [Hmax Hval]].
  pose proof (series_min_spec (map YEAR (rows data))) as Smin.
  pose proof (series_max_spec (map YEAR (rows data))) as Smax.
  rewrite Hmin in Smin. rewrite Hmax in Smax.
  destruct Smin as [Hlo Hle]. destruct Smax as [Hhi Hge].
  apply in_map_iff in Hlo. destruct Hlo as [rlo [Ylo Rlo]].
  apply in_map_iff in Hhi. destruct Hhi as [rhi [Yhi Rhi]].
  split.
  - eexists. split;
      [apply (state_data_Ok data
                (choose_state (choose_year sel (value sl)) "All") Hd Hc)|].
    simpl body. intros E. apply map_eq_nil in E.
    apply (group_keys_nonempty String.eqb String.leb STATE_UT) in E;
      [|exact String.eqb_eq].
    assert (Hin : In rhi (filter (kept (choose_state
                                          (choose_year sel (value sl)) "All"))
                            (rows data))).
    { apply filter_In. split; [exact Rhi|].
      rewrite kept_all by reflexivity. simpl. rewrite Hval.
      apply Z.eqb_eq, Yhi. }
    rewrite E in Hin. destruct Hin.
  - eexists. split; [apply yearly_data_Ok; eassumption|]. simpl body.
    rewrite map_fst_body. split; [|split].
    + apply (group_keys_In Z.eqb Z.leb Z.eqb_eq YEAR). exists rlo. auto.
    + apply (group_keys_In Z.eqb Z.leb Z.eqb_eq YEAR). exists rhi. auto.
    + intros y Hy. apply (group_keys_In Z.eqb Z.leb Z.eqb_eq YEAR) in Hy.
      destruct Hy as [r [Hr <-]].
      split; [apply Hle | apply Hge]; apply in_map, Hr.
Qed.

(** Witness for X14: murders on the 2001-2012 sample. *)
Lemma slider_years_have_totals_witness :
  exists states,
    state_data sample_2001_2012
      (choose_state (choose_year murder_2013 2012) "All") = Ok states /\
    body states <> [].
Proof.
  apply (proj1 (slider_years_have_totals sample_2001_2012 murder_2013
                  (sl := {| min_value := 2001; max_value := 2012;
                            value := 2012 |})
                  (column := "MURDER") eq_refl eq_refl eq_refl)).
Defined.

(** ** The cache *)

Lemma dashboard_cache (fs : FileSystem) (sel : Selection) (w : World) :
  load_data_cache (snd (dashboard fs sel w))
  = match load_data_cache w with
    | Some df => Some df
    | None =>
        match load_data fs with
        | Ok df => Some df
        | Raise _ => None
        end
    end.
Proof.
  unfold dashboard, bindPy, cached_load_data.
  destruct (load_data_cache w) as [df|] eqn:Hc.
  - unfold new.
    set (w1 := {| objects := objects w ++ [OFrame df];
                  load_data_cache := load_data_cache w |}).
    destruct (run_tabs (List.length (objects w)) sel w1) as [r w2] eqn:Hrun.
    apply (@run_tabs_aggregate _ df) in Hrun; [|apply nth_error_new].
    destruct Hrun as [_ [_ Hcache]]. cbn [snd]. rewrite Hcache. exact Hc.
  - destruct (load_data fs) as [df|e] eqn:Hl.
    + unfold new. simpl objects. simpl load_data_cache at 2.
      set (w1 := {| objects := objects w ++ [OFrame df];
                    load_data_cache := Some df |}).
      destruct (run_tabs (List.length (objects w)) sel w1) as [r w2] eqn:Hrun.
      apply (@run_tabs_aggregate _ df) in Hrun; [|apply nth_error_new].
      destruct Hrun as [_ [_ Hcache]]. cbn [snd]. rewrite Hcache. reflexivity.
    + simpl. exact Hc.
Qed.

(** X15.  Once a run has loaded the files, later runs never read them
    again: whatever the files hold by then, a later run shows the
    aggregation of the table loaded first, also when the first run's
    aggregation raised.  A load that raised is not remembered: the next
    run reads the files anew. *)
Theorem cache_outlives_the_files (fs : FileSystem) (sel : Selection)
    (w : World) :
  load_data_cache w = None ->
  (forall df,
     load_data fs = Ok df ->
     forall fs' sel',
       fst (dashboard fs' sel' (snd (dashboard fs sel w))) = aggregate df sel')
  /\ (forall e,
        load_data fs = Raise e ->
        fst (dashboard fs sel w) = Raise e /\
        forall fs' sel',
          fst (dashboard fs' sel' (snd (dashboard fs sel w)))
          = (data <- load_data fs' ;; aggregate data sel')).
Proof.
  intros Hc. pose proof (dashboard_cache fs sel w) as Hcache.
  rewrite Hc in Hcache. split.
  - intros df Hl fs' sel'. rewrite Hl in Hcache.
    rewrite (proj1 (dashboard_tables fs' sel' _)).
    unfold load_source. rewrite Hcache. reflexivity.
  - intros e Hl. rewrite Hl in Hcache. split.
    + rewrite (proj1 (dashboard_tables fs sel w)).
      unfold load_source. rewrite Hc, Hl. reflexivity.
    + intros fs' sel'. rewrite (proj1 (dashboard_tables fs' sel' _)).
      unfold load_source. rewrite Hcache. reflexivity.
Qed.

(** Witness for X15: the sample files are loaded, then every file is
    gone. *)
Lemma cache_outlives_the_files_witness :
  exists df,
    load_data sample_fs = Ok df /\
    fst (dashboard (fun _ => None) murder_2013_assam
           (snd (dashboard sample_fs murder_2013 empty_world)))
    = aggregate df murder_2013_assam.
Proof.
  destruct (load_data sample_fs) as [df|e] eqn:Hload;
    [|vm_compute in Hload; discriminate].
  exists df. split; [reflexivity|].
  apply (proj1 (@cache_outlives_the_files sample_fs murder_2013
                  empty_world eq_refl) df Hload).
Defined.

(** ** The loaded table under the aggregations *)




Lemma category_data_raises_KeyError (data : DataFrame) (sel : Selection)
    (e : Exception) :
  category_data data sel = Raise e -> exists missing, e = KeyError missing.
Proof.
  unfold category_data, getitem_list.
  destruct (filter (fun c => negb (has_column data c)) (dict_values crime_types))
    as [|m ms].
  - simpl. discriminate.
  - simpl. intros H. inversion H. eexists. reflexivity.
Qed.

Lemma dict_getitem_raises_KeyError (d : list (string * string)) (k : string)
    (e : Exception) :
  dict_getitem d k = Raise e -> e = KeyError [k].
Proof.
  induction d as [|[k' v'] d IH]; simpl.
  - intros H. inversion H. reflexivity.
  - destruct (String.eqb k k'); [discriminate | exact IH].
Qed.

Lemma groupby_sum_raises_KeyError (K : Type) (eqb leb : K -> K -> bool)
    (key : Row -> K) (keyname : string) (df : DataFrame) (c : string)
    (e : Exception) :
  groupby_sum eqb leb key keyname df c = Raise e -> e = KeyError [c].
Proof.
  unfold groupby_sum. destruct (has_column df c); [discriminate|].
  intros H. inversion H. reflexivity.
Qed.

(** X17.  The aggregation raises nothing but [KeyError]: for a selected
    crime type that is no label of the dictionary, or for columns the table
    lacks.  The length checks of the two in-place updates of the category
    table never fail. *)
Theorem aggregate_raises_only_KeyError (data : DataFrame) (sel : Selection)
    (e : Exception) :
  aggregate data sel = Raise e -> exists missing, e = KeyError missing.
Proof.
  unfold aggregate. intros H.
  destruct (state_data data sel) as [s|e1] eqn:Hs.
  - destruct (yearly_data data sel) as [y|e2] eqn:Hy.
    + destruct (category_data data sel) as [c|e3] eqn:Hc; [discriminate|].
      simpl in H. inversion H; subst e3.
      apply (category_data_raises_KeyError _ _ Hc).
    + simpl in H. inversion H; subst e2.
      unfold yearly_data in Hy.
      destruct (dict_getitem crime_types (selected_crime sel)) as [col|e2] eqn:Hd.
      * simpl in Hy. apply groupby_sum_raises_KeyError in Hy. eauto.
      * simpl in Hy. inversion Hy; subst.
        apply dict_getitem_raises_KeyError in Hd. eauto.
  - simpl in H. inversion H; subst e1.
    unfold state_data in Hs.
    destruct (dict_getitem crime_types (selected_crime sel)) as [col|e1] eqn:Hd.
    + simpl in Hs. apply groupby_sum_raises_KeyError in Hs. eauto.
    + simpl in Hs. inversion Hs; subst.
      apply dict_getitem_raises_KeyError in Hd. eauto.
Qed.

(** Witness for X17: murders asked of the theft-only source. *)
Lemma aggregate_raises_only_KeyError_witness :
  exists missing, KeyError ["MURDER"] = KeyError missing.
Proof.
  apply (aggregate_raises_only_KeyError theft_only_table murder_2013).
  reflexivity.
Defined.
